(** * kbase.sdk_baseclient: the SDK base client, embedded and verified

    A shallow embedding of [src/kbase/sdk_baseclient.py]: the [ServerError]
    exception, the [_JSONObjectEncoder] hook, and the [SDKBaseClient]
    constructor and call path.

    Conventions of the embedding:
    - a Python value is a [PyVal]; the universe holds what [json] produces
      and accepts (no floats) together with [set] and [frozenset];
    - a Python [str] is a [string] whose characters are code points below 256;
    - a statement that can raise returns a [result]; code that touches the
      process environment, the random source or the network runs in the
      state monad [M] over a [World];
    - library code the client calls ([urllib.parse], [requests], [json]) is
      modelled by the observations the client makes of it. *)

From stdpp Require Import base strings gmap list.
From Stdlib Require Import ZArith QArith DecimalString Ascii.

Local Open Scope Z_scope.
Local Open Scope string_scope.

(** ** Characters that a string literal cannot hold *)

Definition chr (n : nat) : string := String (ascii_of_nat n) "".
Definition DQUOTE : string := chr 34.
Definition SQUOTE : string := chr 39.
Definition BACKSLASH : string := chr 92.
Definition NL : string := chr 10.

(** ** Python values *)

Unset Elimination Schemes.
Inductive PyVal : Type :=
| PNone
| PBool (b : bool)
| PInt (z : Z)
| PStr (s : string)
| PList (l : list PyVal)
| PDict (d : list (string * PyVal))   (* insertion order kept, keys distinct *)
| PSet (l : list PyVal)               (* in the order iteration yields *)
| PFrozenset (l : list PyVal).
Set Elimination Schemes.

(** Structural induction that also reaches the values held in containers. *)
Section PyVal_induction.
Variable P : PyVal -> Prop.
Hypothesis HNone : P PNone.
Hypothesis HBool : forall b, P (PBool b).
Hypothesis HInt : forall z, P (PInt z).
Hypothesis HStr : forall s, P (PStr s).
Hypothesis HList : forall l, Forall P l -> P (PList l).
Hypothesis HDict : forall d, Forall (fun kv => P (snd kv)) d -> P (PDict d).
Hypothesis HSet : forall l, Forall P l -> P (PSet l).
Hypothesis HFrozenset : forall l, Forall P l -> P (PFrozenset l).

Fixpoint PyVal_nested_ind (v : PyVal) : P v :=
  let all := fix all (l : list PyVal) : Forall P l :=
    match l return Forall P l with
    | [] => @List.Forall_nil _ P
    | x :: l' => @List.Forall_cons _ P x l' (PyVal_nested_ind x) (all l')
    end in
  match v with
  | PNone => HNone
  | PBool b => HBool b
  | PInt z => HInt z
  | PStr s => HStr s
  | PList l => HList l (all l)
  | PDict d =>
      HDict d ((fix alld (d : list (string * PyVal)) :=
                  match d return Forall (fun kv => P (snd kv)) d with
                  | [] => @List.Forall_nil _ _
                  | kv :: d' =>
                      @List.Forall_cons _ _ kv d' (PyVal_nested_ind (snd kv)) (alld d')
                  end) d)
  | PSet l => HSet l (all l)
  | PFrozenset l => HFrozenset l (all l)
  end.
End PyVal_induction.

(** ** Exceptions and results *)

(** An instance of [ServerError]: the four attributes [__init__] sets. *)
Record ServerError : Type := {
  name : PyVal;
  code : PyVal;
  message : PyVal;
  data : PyVal
}.

(** What the client observes of a [requests.Response]. [headers] is
    case-insensitive in the library; it is keyed here by the lower-cased
    header name. [text] is the body decoded as UTF-8, the encoding [_call]
    sets. [json_body] is what [ret.json()] parses out of the body, [None]
    when the body is not JSON and the call raises instead. *)
Record Response : Type := {
  status_code : Z;
  headers : gmap string string;
  text : string;
  json_body : option PyVal
}.

Inductive exn : Type :=
| ValueError (msg : string)
| TypeError
| KeyError
| IndexError
| OverflowError (msg : string)
| RecursionError
| JSONDecodeError                      (* raised by [ret.json()] *)
| HTTPError (r : Response)             (* raised by [ret.raise_for_status()] *)
| TransportError (what : string)       (* anything [requests.post] raises *)
| ServerErrorExc (e : ServerError).

Inductive result (A : Type) : Type :=
| Ok (a : A)
| Raise (e : exn).
Arguments Ok {A} a.
Arguments Raise {A} e.

Definition rbind {A B} (r : result A) (k : A -> result B) : result B :=
  match r with
  | Ok a => k a
  | Raise e => Raise e
  end.

#[global] Instance result_ret : MRet result := fun A a => Ok a.
#[global] Instance result_bind : MBind result := fun A B k r => rbind r k.

(** [f] applied to the elements in turn, up to the first that raises. *)
Fixpoint result_map {A B} (f : A -> result B) (l : list A) : result (list B) :=
  match l with
  | [] => Ok []
  | x :: l' => y ← f x; ys ← result_map f l'; Ok (y :: ys)
  end.

(** ** The builtins the client uses *)

(** [bool(v)], as [if v:], [not v] and [or] test it. *)
Definition truthy (v : PyVal) : bool :=
  match v with
  | PNone => false
  | PBool b => b
  | PInt z => negb (z =? 0)%Z
  | PStr s => negb (String.eqb s "")
  | PList l | PSet l | PFrozenset l => match l with [] => false | _ => true end
  | PDict d => match d with [] => false | _ => true end
  end.

(** [a or b]. *)
Definition py_or (a b : PyVal) : PyVal := if truthy a then a else b.

Definition is_str (k : string) (v : PyVal) : bool :=
  match v with
  | PStr s => String.eqb s k
  | _ => false
  end.

Fixpoint dict_get (k : string) (d : list (string * PyVal)) : option PyVal :=
  match d with
  | [] => None
  | (k', v) :: d' => if String.eqb k' k then Some v else dict_get k d'
  end.

Fixpoint is_substring (k s : string) : bool :=
  String.prefix k s ||
  match s with
  | EmptyString => false
  | String _ s' => is_substring k s'
  end.

(** [k in v] for a string [k]. *)
Definition py_in (k : string) (v : PyVal) : result bool :=
  match v with
  | PDict d => Ok (bool_decide (is_Some (dict_get k d)))
  | PList l | PSet l | PFrozenset l => Ok (existsb (is_str k) l)
  | PStr s => Ok (is_substring k s)
  | PNone | PBool _ | PInt _ => Raise TypeError
  end.

(** [v[k]] for a string [k]. *)
Definition py_getitem (v : PyVal) (k : string) : result PyVal :=
  match v with
  | PDict d => match dict_get k d with Some x => Ok x | None => Raise KeyError end
  | _ => Raise TypeError
  end.

(** [len(v)]. *)
Definition py_len (v : PyVal) : result Z :=
  match v with
  | PStr s => Ok (Z.of_nat (String.length s))
  | PList l | PSet l | PFrozenset l => Ok (Z.of_nat (length l))
  | PDict d => Ok (Z.of_nat (length d))
  | PNone | PBool _ | PInt _ => Raise TypeError
  end.

(** [v[0]]. *)
Definition py_getitem0 (v : PyVal) : result PyVal :=
  match v with
  | PList (x :: _) => Ok x
  | PList [] => Raise IndexError
  | PStr (String c _) => Ok (PStr (String c ""))
  | PStr EmptyString => Raise IndexError
  | PDict _ => Raise KeyError           (* the keys are strings, never 0 *)
  | _ => Raise TypeError
  end.

(** [a + b]: the client only ever concatenates strings. *)
Definition py_add_str (a : result string) (b : PyVal) : result string :=
  rbind a (fun s => match b with PStr t => Ok (s +:+ t) | _ => Raise TypeError end).

(** [str(z)] for an int. *)
Definition str_of_int (z : Z) : string := NilZero.string_of_int (Z.to_int z).

(** *** [repr] and [str] *)

Definition hexdigit (n : nat) : string :=
  match String.get n "0123456789abcdef" with
  | Some c => String c ""
  | None => ""
  end.

Definition hex2 (n : nat) : string :=
  hexdigit (Nat.div n 16) +:+ hexdigit (Nat.modulo n 16).

Fixpoint has_char (c : ascii) (s : string) : bool :=
  match s with
  | EmptyString => false
  | String c' s' => Ascii.eqb c' c || has_char c s'
  end.

Fixpoint string_map (f : ascii -> string) (s : string) : string :=
  match s with
  | EmptyString => ""
  | String c s' => f c +:+ string_map f s'
  end.

(** One character of [repr(s)] inside the quote [q]: the quote and the
    backslash are escaped, tab, newline and return are spelled, and what is
    not printable is written in hexadecimal. *)
Definition repr_char (q : ascii) (c : ascii) : string :=
  let n := nat_of_ascii c in
  if Ascii.eqb c q || Ascii.eqb c (ascii_of_nat 92) then BACKSLASH +:+ String c ""
  else if Nat.eqb n 9 then BACKSLASH +:+ "t"
  else if Nat.eqb n 10 then BACKSLASH +:+ "n"
  else if Nat.eqb n 13 then BACKSLASH +:+ "r"
  else if Nat.ltb n 32 || Nat.eqb n 127 then BACKSLASH +:+ "x" +:+ hex2 n
  else if Nat.ltb n 127 then String c ""
  else if Nat.leb n 160 || Nat.eqb n 173 then BACKSLASH +:+ "x" +:+ hex2 n
  else String c "".

(** [repr(s)] for a string: double quotes only when [s] holds a single quote
    and no double quote. *)
Definition repr_str (s : string) : string :=
  let sq := ascii_of_nat 39 in
  let dq := ascii_of_nat 34 in
  let q := if has_char sq s && negb (has_char dq s) then dq else sq in
  String q "" +:+ string_map (repr_char q) s +:+ String q "".

Fixpoint py_repr (v : PyVal) : string :=
  match v with
  | PNone => "None"
  | PBool true => "True"
  | PBool false => "False"
  | PInt z => str_of_int z
  | PStr s => repr_str s
  | PList l => "[" +:+ String.concat ", " (map py_repr l) +:+ "]"
  | PDict d =>
      "{" +:+ String.concat ", "
                (map (fun kv => repr_str (fst kv) +:+ ": " +:+ py_repr (snd kv)) d)
          +:+ "}"
  | PSet [] => "set()"
  | PSet l => "{" +:+ String.concat ", " (map py_repr l) +:+ "}"
  | PFrozenset [] => "frozenset()"
  | PFrozenset l => "frozenset({" +:+ String.concat ", " (map py_repr l) +:+ "})"
  end.

(** [str(v)]. *)
Definition py_str (v : PyVal) : string :=
  match v with
  | PStr s => s
  | _ => py_repr v
  end.

(** ** [class ServerError(Exception)] *)

Module ServerError.

(** [__init__(self, name, code, message, data=None, error=None)]. An
    argument left out is its default, [None]. *)
Definition __init__ (name code message data error : PyVal) : ServerError :=
  {| name := name;
     code := code;
     message := match message with PNone => PStr "" | _ => message end;
     data := py_or (py_or data error) (PStr "") |}.

(** [__str__(self)]. *)
Definition __str__ (self : ServerError) : result string :=
  let s := match name self with PStr n => Ok n | _ => Raise TypeError end in
  let s := py_add_str s (PStr ": ") in
  let s := py_add_str s (PStr (py_str (code self))) in
  let s := py_add_str s (PStr ". ") in
  let s := py_add_str s (message self) in
  let s := py_add_str s (PStr NL) in
  py_add_str s (data self).

(** The parameters [__init__] can be passed by keyword. *)
Definition parameters : list string :=
  ["name"; "code"; "message"; "data"; "error"].

(** A call that unpacks the mapping [kw] into keyword arguments, as
    [_call] makes it: [kw] has to be a mapping, each of its keys has to
    name a parameter, and the three parameters without a default have to
    be there. *)
Definition call_kwargs (kw : PyVal) : result ServerError :=
  match kw with
  | PDict d =>
      if forallb (fun k => bool_decide (k ∈ parameters)) (map fst d) then
        match dict_get "name" d, dict_get "code" d, dict_get "message" d with
        | Some n, Some c, Some m =>
            Ok (__init__ n c m (default PNone (dict_get "data" d))
                               (default PNone (dict_get "error" d)))
        | _, _, _ => Raise TypeError
        end
      else Raise TypeError
  | _ => Raise TypeError
  end.

End ServerError.

(** ** [class _JSONObjectEncoder(json.JSONEncoder)] *)

(** One character of a JSON string under [ensure_ascii]: the quote, the
    backslash and everything outside space..tilde is escaped. *)
Definition json_escape_char (c : ascii) : string :=
  let n := nat_of_ascii c in
  if Nat.eqb n 34 then BACKSLASH +:+ DQUOTE
  else if Nat.eqb n 92 then BACKSLASH +:+ BACKSLASH
  else if Nat.eqb n 8 then BACKSLASH +:+ "b"
  else if Nat.eqb n 12 then BACKSLASH +:+ "f"
  else if Nat.eqb n 10 then BACKSLASH +:+ "n"
  else if Nat.eqb n 13 then BACKSLASH +:+ "r"
  else if Nat.eqb n 9 then BACKSLASH +:+ "t"
  else if Nat.leb 32 n && Nat.leb n 126 then String c ""
  else BACKSLASH +:+ "u00" +:+ hex2 n.

Definition encode_basestring_ascii (s : string) : string :=
  DQUOTE +:+ string_map json_escape_char s +:+ DQUOTE.

Module JSONEncoder.

(** [default(self, o)] of the library's encoder: it raises, for every
    value. *)
Definition default (o : PyVal) : result PyVal := Raise TypeError.

(** [encode(self, o)] with the default separators, for an encoder whose
    hook is [default]. What json encodes itself (null, booleans, ints,
    strings, lists, dicts with string keys) is written out; for any other
    value the encoder calls [default] and encodes what comes back. [depth]
    bounds how deep the encoder goes, as the recursion limit of the
    interpreter does. *)
Fixpoint encode (default : PyVal -> result PyVal) (depth : nat) (o : PyVal)
  : result string :=
  match depth with
  | O => Raise RecursionError
  | S depth' =>
      match o with
      | PNone => Ok "null"
      | PBool true => Ok "true"
      | PBool false => Ok "false"
      | PInt z => Ok (str_of_int z)
      | PStr s => Ok (encode_basestring_ascii s)
      | PList l =>
          items ← result_map (encode default depth') l;
          Ok ("[" +:+ String.concat ", " items +:+ "]")
      | PDict d =>
          items ← result_map
                    (fun kv =>
                       v ← encode default depth' (snd kv);
                       Ok (encode_basestring_ascii (fst kv) +:+ ": " +:+ v))
                    d;
          Ok ("{" +:+ String.concat ", " items +:+ "}")
      | PSet _ | PFrozenset _ =>
          o' ← default o;
          encode default depth' o'
      end
  end.

End JSONEncoder.

Module _JSONObjectEncoder.

(** [default(self, obj)]: a set or a frozenset becomes the list of its
    elements; anything else is left to the library's [default]. *)
Definition default (obj : PyVal) : result PyVal :=
  match obj with
  | PSet l => Ok (PList l)
  | PFrozenset l => Ok (PList l)
  | _ => JSONEncoder.default obj
  end.

End _JSONObjectEncoder.

(** How deep an encoder has to go to write [o] out: one level for each
    container, and one more at a set or frozenset, for what the hook makes
    of it. *)
Fixpoint nesting (o : PyVal) : nat :=
  match o with
  | PList l => S (foldr Nat.max O (map nesting l))
  | PSet l | PFrozenset l => S (S (foldr Nat.max O (map nesting l)))
  | PDict d => S (foldr Nat.max O (map (fun kv => nesting (snd kv)) d))
  | _ => 1%nat
  end.

(** [json.dumps(obj, cls=_JSONObjectEncoder)]. The recursion limit of the
    interpreter is not modelled: the encoder may go as deep as [obj] is
    nested. *)
Definition dumps (obj : PyVal) : result string :=
  JSONEncoder.encode _JSONObjectEncoder.default (nesting obj) obj.

(** The value with every set and frozenset in it, at any depth, replaced by
    the list of its elements. *)
Fixpoint sets_to_lists (v : PyVal) : PyVal :=
  match v with
  | PList l | PSet l | PFrozenset l => PList (map sets_to_lists l)
  | PDict d => PDict (map (fun kv => (fst kv, sets_to_lists (snd kv))) d)
  | _ => v
  end.

(** ** The world the client runs in *)

(** One [requests.post(url, data=, headers=, timeout=, verify=)]. *)
Record Request : Type := {
  req_url : string;
  req_data : string;
  req_headers : gmap string string;
  req_timeout : Z;
  req_verify : bool
}.

(** What lies outside the program: the process environment, the random
    source (the [n]-th draw, as [str] prints it), the network (what a posted
    request comes back with) and the requests posted so far. *)
Record World : Type := {
  environ : gmap string string;
  randoms : nat -> string;
  draws : nat;
  network : Request -> result Response;
  sent : list Request
}.

Definition M (A : Type) : Type := World -> result A * World.

#[global] Instance M_ret : MRet M := fun A a w => (Ok a, w).
#[global] Instance M_bind : MBind M := fun A B k m w =>
  match m w with
  | (Ok a, w') => k a w'
  | (Raise e, w') => (Raise e, w')
  end.

Definition raise {A} (e : exn) : M A := fun w => (Raise e, w).
Definition lift {A} (r : result A) : M A := fun w => (r, w).

(** [k in os.environ] and [os.environ.get(k)]. *)
Definition environ_contains (k : string) : M bool :=
  fun w => (Ok (bool_decide (is_Some (environ w !! k))), w).
Definition environ_get (k : string) : M (option string) :=
  fun w => (Ok (environ w !! k), w).

(** [str(random.random())]. *)
Definition random_random_str : M string :=
  fun w => (Ok (randoms w (draws w)),
            {| environ := environ w; randoms := randoms w; draws := S (draws w);
               network := network w; sent := sent w |}).

(** [requests.post(...)]: the request goes out, and the response, or the
    exception of the transport, comes back. *)
Definition requests_post (q : Request) : M Response :=
  fun w => (network w q,
            {| environ := environ w; randoms := randoms w; draws := draws w;
               network := network w; sent := (sent w ++ [q])%list |}).

(** *** The response object *)

(** [ret.raise_for_status()]: an [HTTPError] for a status from 400 to 599. *)
Definition raise_for_status (r : Response) : result unit :=
  if (400 <=? status_code r)%Z && (status_code r <? 600)%Z
  then Raise (HTTPError r) else Ok tt.

(** [ret.ok]: whether [raise_for_status] would return. *)
Definition ok (r : Response) : bool :=
  match raise_for_status r with
  | Ok _ => true
  | Raise _ => false
  end.

(** [ret.json()]. *)
Definition json (r : Response) : result PyVal :=
  match json_body r with
  | Some v => Ok v
  | None => Raise JSONDecodeError
  end.

(** ** Numbers given as a timeout *)

(** An [int] or a [float]: a finite float is the binary fraction
    [m * 2^e]; the others are NaN and the two infinities. *)
Inductive PyNum : Type :=
| NInt (z : Z)
| NFloat (m e : Z)
| NNaN
| NInf (negative : bool).

(** [int(x)]: a finite float is truncated towards zero; NaN and the
    infinities are refused. *)
Definition py_int (x : PyNum) : result Z :=
  match x with
  | NInt z => Ok z
  | NFloat m e =>
      Ok (if (0 <=? e)%Z then m * 2 ^ e else Z.quot m (2 ^ (- e)))
  | NNaN => Raise (ValueError "cannot convert float NaN to integer")
  | NInf _ => Raise (OverflowError "cannot convert float infinity to integer")
  end.

(** The least size at which an int no longer converts to a float: from here
    on it would round to [2^1024]. *)
Definition float_limit : Z := 2 ^ 1024 - 2 ^ 970.

(** [n / 1000.0] for an int [n]: the int is first converted to a float,
    which fails for one too large. The quotient is kept exact: what the
    float division rounds away is read by nothing. *)
Definition div_1000 (n : Z) : result Q :=
  if (float_limit <=? Z.abs n)%Z
  then Raise (OverflowError "int too large to convert to float")
  else Ok (inject_Z n / inject_Z 1000)%Q.

(** [s[n:]]. *)
Fixpoint str_from (n : nat) (s : string) : string :=
  match n, s with
  | O, _ => s
  | S n', String _ s' => str_from n' s'
  | S _, EmptyString => ""
  end.

(** ** Module constants *)

Definition _CT : string := "content-type".
Definition _AJ : string := "application/json".
Definition _URL_SCHEME : gset string := {[ "http"; "https" ]}.
Definition _CHECK_JOB_RETRIES : Z := 3.

(** ** [urllib.parse.urlparse]: the scheme, and the urls it refuses *)

(** Library behaviour (CPython 3.11, [urlsplit]): leading C0 controls and
    spaces are stripped, tab, return and newline are removed, and what
    stands before the first colon is the scheme, in lower case, when it
    starts with an ASCII letter and holds only letters, digits, plus, minus
    and dot; otherwise the scheme is empty. When two slashes follow, what
    stands up to the next slash, question mark or hash is the network
    location, and a bracket in it has to open a well-formed IPv6 or IPvFuture
    host: if not, [urlsplit] raises [ValueError]. The check of the
    normalized location never raises for code points below 256. *)

Definition is_alpha (c : ascii) : bool :=
  let n := nat_of_ascii c in
  (Nat.leb 65 n && Nat.leb n 90) || (Nat.leb 97 n && Nat.leb n 122).

Definition is_digit (c : ascii) : bool :=
  let n := nat_of_ascii c in Nat.leb 48 n && Nat.leb n 57.

Definition is_hex (c : ascii) : bool :=
  let n := nat_of_ascii c in
  is_digit c || (Nat.leb 65 n && Nat.leb n 70) || (Nat.leb 97 n && Nat.leb n 102).

Definition is_scheme_char (c : ascii) : bool :=
  let n := nat_of_ascii c in
  is_alpha c || (Nat.leb 48 n && Nat.leb n 57)
  || Nat.eqb n 43 || Nat.eqb n 45 || Nat.eqb n 46.

Definition lower_char (c : ascii) : ascii :=
  let n := nat_of_ascii c in
  if Nat.leb 65 n && Nat.leb n 90 then ascii_of_nat (n + 32) else c.

Fixpoint lstrip_c0_space (s : string) : string :=
  match s with
  | String c s' => if Nat.leb (nat_of_ascii c) 32 then lstrip_c0_space s' else s
  | EmptyString => ""
  end.

Definition remove_unsafe (s : string) : string :=
  string_map (fun c => let n := nat_of_ascii c in
                       if Nat.eqb n 9 || Nat.eqb n 13 || Nat.eqb n 10
                       then "" else String c "") s.

(** [url[:url.find(':')]], when there is a colon. *)
Fixpoint before_colon (s : string) : option string :=
  match s with
  | EmptyString => None
  | String c s' =>
      if Nat.eqb (nat_of_ascii c) 58 then Some ""
      else option_map (String c) (before_colon s')
  end.

Fixpoint string_forallb (f : ascii -> bool) (s : string) : bool :=
  match s with
  | EmptyString => true
  | String c s' => f c && string_forallb f s'
  end.

(** [s.partition(sep)]: what stands before the first [sep], whether there
    is one, and what stands after it. *)
Fixpoint partition (sep : ascii) (s : string) : string * bool * string :=
  match s with
  | EmptyString => ("", false, "")
  | String c s' =>
      if Ascii.eqb c sep then ("", true, s')
      else let '(a, found, b) := partition sep s' in (String c a, found, b)
  end.

(** [s.split(sep)]. *)
Fixpoint split (sep : ascii) (s : string) : list string :=
  match s with
  | EmptyString => [""]
  | String c s' =>
      if Ascii.eqb c sep then "" :: split sep s'
      else match split sep s' with
           | p :: ps => String c p :: ps
           | [] => [String c ""]
           end
  end.

(** [s.rpartition(sep)[2]]: what stands after the last [sep], all of [s]
    when there is none. *)
Definition after_last (sep : ascii) (s : string) : string :=
  List.last (split sep s) "".

Definition starts_with (c : ascii) (s : string) : bool :=
  match s with
  | String c' _ => Ascii.eqb c' c
  | EmptyString => false
  end.

(** The scheme, and what is left of the url once it is taken off. *)
Definition split_scheme (url : string) : string * string :=
  match before_colon url with
  | Some (String c0 _ as pre) =>
      if is_alpha c0 && string_forallb is_scheme_char pre
      then (string_map (fun c => String (lower_char c) "") pre,
            str_from (S (String.length pre)) url)
      else ("", url)
  | _ => ("", url)
  end.

(** [_splitnetloc(url, 2)[0]]: up to the first slash, question mark or
    hash. *)
Fixpoint take_netloc (s : string) : string :=
  match s with
  | EmptyString => ""
  | String c s' =>
      let n := nat_of_ascii c in
      if Nat.eqb n 47 || Nat.eqb n 63 || Nat.eqb n 35 then ""
      else String c (take_netloc s')
  end.

(** The network location, when the url goes on with two slashes. *)
Definition netloc_of (rest : string) : option string :=
  match rest with
  | String c1 (String c2 s) =>
      if Nat.eqb (nat_of_ascii c1) 47 && Nat.eqb (nat_of_ascii c2) 47
      then Some (take_netloc s) else None
  | _ => None
  end.

(** *** [ipaddress]: which strings are addresses *)

Fixpoint decimal_value (acc : N) (s : string) : N :=
  match s with
  | EmptyString => acc
  | String c s' => decimal_value (10 * acc + (N_of_ascii c - 48))%N s'
  end.

(** [IPv4Address._parse_octet] succeeds. *)
Definition octet_ok (s : string) : bool :=
  if negb (String.eqb s "") && string_forallb is_digit s
     && Nat.leb (String.length s) 3
  then (String.eqb s "0" || negb (starts_with "0" s))
       && N.leb (decimal_value 0 s) 255
  else false.

(** [IPv4Address(s)] succeeds. *)
Definition ipv4_ok (s : string) : bool :=
  negb (has_char "/" s)
  && negb (String.eqb s "")
  && (let octets := split "." s in
      Nat.eqb (length octets) 4 && forallb octet_ok octets).

(** [IPv6Address._parse_hextet] succeeds. *)
Definition hextet_ok (s : string) : bool :=
  string_forallb is_hex s
  && Nat.leb (String.length s) 4
  && negb (String.eqb s "").

Definition is_empty (s : string) : bool := String.eqb s "".

(** [IPv6Address._ip_int_from_string] succeeds on the parts between the
    colons, an IPv4 suffix having been turned into its two hextets. *)
Definition ipv6_parts_ok (parts : list string) : bool :=
  let n := length parts in
  let first_empty := is_empty (List.hd "" parts) in
  let last_empty := is_empty (List.last parts "") in
  Nat.leb n 9
  && match List.filter (fun i => is_empty (List.nth i parts ""))
                       (List.seq 1 (n - 2)) with
     | [] =>
         Nat.eqb n 8 && negb first_empty && negb last_empty
         && forallb hextet_ok parts
     | [skip] =>
         let hi := if first_empty then (skip - 1)%nat else skip in
         let lo := if last_empty then (n - skip - 2)%nat
                   else (n - skip - 1)%nat in
         (negb first_empty || Nat.eqb hi 0)
         && (negb last_empty || Nat.eqb lo 0)
         && Nat.leb (hi + lo + 1) 8
         && forallb hextet_ok (take hi parts)
         && forallb hextet_ok (drop (n - lo) parts)
     | _ => false
     end.

(** [IPv6Address(s)] succeeds. *)
Definition ipv6_ok (s : string) : bool :=
  negb (has_char "/" s)
  && (let '(addr, has_scope, scope) := partition "%" s in
      (negb has_scope || (negb (is_empty scope) && negb (has_char "%" scope)))
      && negb (is_empty addr)
      && (let parts := split ":" addr in
          Nat.leb 3 (length parts)
          && (let tail := List.last parts "" in
              if has_char "." tail
              then ipv4_ok tail
                   && ipv6_parts_ok (List.removelast parts ++ ["0"; "0"])%list
              else ipv6_parts_ok parts))).

(** [re.match] of the IPvFuture pattern: v, hexadecimal digits, a dot, and
    at least one more character, none of them a newline. *)
Definition ipvfuture_ok (s : string) : bool :=
  match s with
  | String _ rest =>
      let '(digits, has_dot, tail) := partition "." rest in
      has_dot && negb (is_empty digits) && string_forallb is_hex digits
      && negb (is_empty tail) && negb (has_char (ascii_of_nat 10) tail)
  | EmptyString => false
  end.

(** [_check_bracketed_host(hostname)]. *)
Definition check_bracketed_host (hostname : string) : result unit :=
  if starts_with "v" hostname then
    if ipvfuture_ok hostname then Ok tt
    else Raise (ValueError "IPvFuture address is invalid")
  else if ipv4_ok hostname then
    Raise (ValueError "An IPv4 address cannot be in brackets")
  else if ipv6_ok hostname then Ok tt
  else Raise (ValueError (repr_str hostname
                            +:+ " does not appear to be an IPv4 or IPv6 address")).

(** [_check_bracketed_netloc(netloc)]. *)
Definition check_bracketed_netloc (netloc : string) : result unit :=
  let hostname_and_port := after_last "@" netloc in
  let '(before_bracket, have_open_br, bracketed) :=
    partition "[" hostname_and_port in
  if have_open_br then
    if negb (is_empty before_bracket) then Raise (ValueError "Invalid IPv6 URL")
    else
      let '(hostname, _, port) := partition "]" bracketed in
      if negb (is_empty port) && negb (starts_with ":" port)
      then Raise (ValueError "Invalid IPv6 URL")
      else check_bracketed_host hostname
  else
    let '(hostname, _, _) := partition ":" hostname_and_port in
    check_bracketed_host hostname.

(** The scheme [urlparse(url)] returns first, or the [ValueError] it
    raises. *)
Definition urlparse_scheme (url : string) : result string :=
  let url := remove_unsafe (lstrip_c0_space url) in
  let '(scheme, rest) := split_scheme url in
  _ ← match netloc_of rest with
      | Some netloc =>
          let opens := has_char "[" netloc in
          let closes := has_char "]" netloc in
          if (opens && negb closes) || (closes && negb opens)
          then Raise (ValueError "Invalid IPv6 URL")
          else if opens && closes then check_bracketed_netloc netloc
          else Ok tt
      | None => Ok tt
      end;
  Ok scheme.

(** ** [class SDKBaseClient] *)

(** The attributes [__init__] sets. The two waits are milliseconds divided by
    [1000.0] ([div_1000]). *)
Record SDKBaseClient : Type := {
  url : string;
  timeout : Z;
  _headers : gmap string string;
  trust_all_ssl_certificates : bool;
  lookup_url : bool;
  async_job_check_time : Q;
  async_job_check_time_scale_percent : Z;
  async_job_check_max_time : Q;
  token : option string
}.

Module SDKBaseClient.

Section Construction.

(** The scheme [urlparse(url)] returns first, or the exception it raises;
    any function will do. *)
Variable urlparse : string -> result string.

(** [__init__(self, url, *, timeout, token, trust_all_ssl_certificates,
    lookup_url, async_job_check_time_ms,
    async_job_check_time_scale_percent, async_job_check_max_time_ms)]. *)
Definition __init__
    (url : option string) (timeout : PyNum) (token : option string)
    (trust_all_ssl_certificates lookup_url : bool)
    (async_job_check_time_ms async_job_check_time_scale_percent
       async_job_check_max_time_ms : Z) : M SDKBaseClient :=
  match url with
  | None => raise (ValueError "A url is required")
  | Some url =>
      scheme ← lift (urlparse url);
      if bool_decide (scheme ∉ _URL_SCHEME)
      then raise (ValueError (url +:+ " isn't a valid http url"))
      else
        timeout ← lift (py_int timeout);
        async_job_check_time ← lift (div_1000 async_job_check_time_ms);
        async_job_check_max_time ← lift (div_1000 async_job_check_max_time_ms);
        self_token ←
          match token with
          | Some t => mret (Some t)
          | None =>
              has ← environ_contains "KB_AUTH_TOKEN";
              if has : bool then environ_get "KB_AUTH_TOKEN" else mret None
          end;
        let headers : gmap string string :=
          match self_token with
          | Some t =>
              if truthy (PStr t) then <["AUTHORIZATION" := t]> ∅ else ∅
          | None => ∅
          end in
        if (timeout <? 1)%Z
        then raise (ValueError "Timeout value must be at least 1 second")
        else mret {|
          url := url;
          timeout := timeout;
          _headers := headers;
          trust_all_ssl_certificates := trust_all_ssl_certificates;
          lookup_url := lookup_url;
          async_job_check_time := async_job_check_time;
          async_job_check_time_scale_percent :=
            async_job_check_time_scale_percent;
          async_job_check_max_time := async_job_check_max_time;
          token := self_token |}
  end.

End Construction.

(** The error [_call] raises for a response it cannot read. *)
Definition unknown (message : string) : exn :=
  ServerErrorExc
    (ServerError.__init__ (PStr "Unknown") (PInt 0) (PStr message) PNone PNone).

(** [_call], lines 111-126: the envelope, its serialization, which may
    raise, and the arguments of the post. [r] is [str(_random.random())]. *)
Definition _call_request (self : SDKBaseClient) (url : string)
    (method : string) (params : list PyVal)
    (context : option (list (string * PyVal))) (r : string)
  : result Request :=
  let arg_hash := [("method", PStr method);
                   ("params", PList params);
                   ("version", PStr "1.1");
                   ("id", PStr (str_from 2 r))] in
  let arg_hash :=
    match context with
    | Some c => if truthy (PDict c)
                then (arg_hash ++ [("context", PDict c)])%list
                else arg_hash
    | None => arg_hash
    end in
  body ← dumps (PDict arg_hash);
  Ok {| req_url := url;
        req_data := body;
        req_headers := _headers self;
        req_timeout := timeout self;
        req_verify := negb (trust_all_ssl_certificates self) |}.

(** [_call], lines 128-150: what is made of the response [ret]. *)
Definition _call_response (ret : Response) : result PyVal :=
  if (status_code ret =? 500)%Z then
    if bool_decide (headers ret !! _CT = Some _AJ) then
      err ← json ret;
      has ← py_in "error" err;
      if has : bool then
        kw ← py_getitem err "error";
        e ← ServerError.call_kwargs kw;
        Raise (ServerErrorExc e)
      else
        Raise (unknown ("The server returned unexpected error JSON: "
                          +:+ text ret))
    else
      Raise (unknown ("The server returned a non-JSON response: "
                        +:+ text ret))
  else
    _ ← (if negb (ok ret) then raise_for_status ret else Ok tt);
    resp ← json ret;
    has ← py_in "result" resp;
    if negb has then Raise (unknown "An unknown server error occurred")
    else
      res ← py_getitem resp "result";
      if negb (truthy res) then Ok PNone
      else
        n ← py_len res;
        if (n =? 1)%Z then py_getitem0 res else Ok res.

(** [_call(self, url, method, params, context)]. *)
Definition _call (self : SDKBaseClient) (url : string) (method : string)
    (params : list PyVal) (context : option (list (string * PyVal)))
  : M PyVal :=
  r ← random_random_str;
  q ← lift (_call_request self url method params context r);
  ret ← requests_post q;
  lift (_call_response ret).

(** [call_method(self, service_method, args, *, service_ver=None)]. *)
Definition call_method (self : SDKBaseClient) (service_method : string)
    (args : list PyVal) (service_ver : option string) : M PyVal :=
  let url := url self in
  _call self url service_method args None.

End SDKBaseClient.

(** * Vocabulary of the statements, and sample inputs *)

(** A string the server may leave out or send as null. *)
Definition of_opt (o : option string) : PyVal :=
  match o with
  | Some s => PStr s
  | None => PNone
  end.

(** The JSON text of a value, a set or frozenset being written as the
    array of its elements: what [dumps] comes to (lemma [dumps_text]). *)
Fixpoint json_text (o : PyVal) : string :=
  match o with
  | PNone => "null"
  | PBool true => "true"
  | PBool false => "false"
  | PInt z => str_of_int z
  | PStr s => encode_basestring_ascii s
  | PList l | PSet l | PFrozenset l =>
      "[" +:+ String.concat ", " (map json_text l) +:+ "]"
  | PDict d =>
      "{" +:+ String.concat ", "
                (map (fun kv => encode_basestring_ascii (fst kv) +:+ ": "
                                  +:+ json_text (snd kv)) d)
          +:+ "}"
  end.

(** The envelope of a call without context, [r] being what the random
    source prints. *)
Definition envelope (method : string) (args : list PyVal) (r : string)
  : PyVal :=
  PDict [("method", PStr method); ("params", PList args);
         ("version", PStr "1.1"); ("id", PStr (str_from 2 r))].

(** The request [call_method] posts when the random source prints [r]
    (lemma [call_request_posted]). *)
Definition request_with_id (self : SDKBaseClient) (method : string)
    (args : list PyVal) (r : string) : Request :=
  {| req_url := url self;
     req_data := json_text (envelope method args r);
     req_headers := _headers self;
     req_timeout := timeout self;
     req_verify := negb (trust_all_ssl_certificates self) |}.

(** The request [call_method] posts in the world [w]. *)
Definition posted (w : World) (self : SDKBaseClient) (method : string)
    (args : list PyVal) : Request :=
  request_with_id self method args (randoms w (draws w)).

(** An int that converts to a float. *)
Definition fits_float (n : Z) : Prop := Z.abs n < float_limit.

(** The call receives the response [ret]: the network answers the posted
    request with it. *)
Definition receives (w : World) (self : SDKBaseClient) (method : string)
    (args : list PyVal) (ret : Response) : Prop :=
  network w (posted w self method args) = Ok ret.

(** The world once the call has drawn its id and posted its request. *)
Definition after_call (w : World) (q : Request) : World :=
  {| environ := environ w; randoms := randoms w; draws := S (draws w);
     network := network w; sent := (sent w ++ [q])%list |}.

Definition is_ServerError {A} (r : result A) : Prop :=
  exists e, r = Raise (ServerErrorExc e).

(** The string a [ServerError] keeps as its data when the server sends the
    strings [data] and [error], either of which it may leave out: the first
    of the two that is there and not empty. *)
Definition first_nonempty (data error : option string) : string :=
  match data, error with
  | Some (String _ _ as d), _ => d
  | _, Some (String _ _ as e) => e
  | _, _ => ""
  end.

(** A world in which every post is answered with [ret]. *)
Definition answering (ret : Response) : World :=
  {| environ := ∅;
     randoms := fun _ => "0.8444218515250481";
     draws := 0;
     network := fun _ => Ok ret;
     sent := [] |}.

(** A client as [SDKBaseClient(url)] builds it without a token. *)
Definition plain_client (url : string) : SDKBaseClient :=
  {| url := url;
     timeout := 1800;
     _headers := ∅;
     trust_all_ssl_certificates := false;
     lookup_url := false;
     async_job_check_time := (inject_Z 100 / inject_Z 1000)%Q;
     async_job_check_time_scale_percent := 150;
     async_job_check_max_time := (inject_Z 300000 / inject_Z 1000)%Q;
     token := None |}.

Definition json_response (status : Z) (body_text : string)
    (body : option PyVal) : Response :=
  {| status_code := status;
     headers := {[ "content-type" := "application/json" ]};
     text := body_text;
     json_body := body |}.

(** The error raised for a response that cannot be read: name "Unknown",
    code 0, the given message, and no data. *)
Definition unknown_error (msg : string) : exn :=
  ServerErrorExc {| name := PStr "Unknown"; code := PInt 0;
                    message := PStr msg; data := PStr "" |}.

(** The data as the specification words it: the first of the two fields
    that is present, the empty string when neither is. *)
Definition first_present (data error : option string) : string :=
  match data, error with
  | Some d, _ => d
  | None, Some e => e
  | None, None => ""
  end.

(** The token [__init__] settles on: the one passed, else the one in the
    environment. *)
Definition resolved_token (explicit : option string) (w : World)
  : option string :=
  match explicit with
  | Some t => Some t
  | None => environ w !! "KB_AUTH_TOKEN"
  end.

(** The headers [__init__] prepares for a settled token. *)
Definition auth_headers (t : option string) : gmap string string :=
  match t with
  | Some (String _ _ as t) => {[ "AUTHORIZATION" := t ]}
  | _ => ∅
  end.

(** A world with [KB_AUTH_TOKEN] set, in which every post is answered with
    [ret]. *)
Definition with_env_token (tok : string) (ret : Response) : World :=
  {| environ := {[ "KB_AUTH_TOKEN" := tok ]};
     randoms := fun _ => "0.8444218515250481";
     draws := 0;
     network := fun _ => Ok ret;
     sent := [] |}.

Definition version_response : Response :=
  json_response 200 "(the body)" (Some (PDict [("result", PList [PStr "0.14.2"])])).

(** The constructor with the defaults of the keyword arguments that the
    statements below do not vary. *)
Definition construct (u : option string) (t : PyNum) (explicit : option string)
  : M SDKBaseClient :=
  SDKBaseClient.__init__ urlparse_scheme u t explicit false false 100 150 300000.

Definition quoted (s : string) : string := DQUOTE +:+ s +:+ DQUOTE.

(** A world in which the transport fails: every post raises [e]. *)
Definition unreachable (e : exn) : World :=
  {| environ := ∅;
     randoms := fun _ => "0.8444218515250481";
     draws := 0;
     network := fun _ => Raise e;
     sent := [] |}.

(** A status for which [raise_for_status] raises. *)
Definition error_status (status : Z) : Prop := 400 <= status < 600.

(** A character from space to tilde. *)
Definition printable (c : ascii) : bool :=
  Nat.leb 32 (nat_of_ascii c) && Nat.leb (nat_of_ascii c) 126.

(** An "error" member that [ServerError] can be called with: an object
    whose keys all name parameters and which holds the three parameters
    without a default. *)
Definition binds_parameters (kw : PyVal) : Prop :=
  exists e,
    kw = PDict e
    /\ Forall (fun k => k ∈ ServerError.parameters) (map fst e)
    /\ is_Some (dict_get "name" e)
    /\ is_Some (dict_get "code" e)
    /\ is_Some (dict_get "message" e).

(** * Properties *)

(** ** The encoder and its hook *)

Lemma result_map_ok {A B} (f : A -> result B) (g : A -> B) (l : list A) :
  Forall (fun x => f x = Ok (g x)) l -> result_map f l = Ok (map g l).
Proof.
  induction 1 as [|x l Hx Hl IH]; [reflexivity|].
  cbn [result_map map]. unfold mbind, result_bind, rbind in *.
  rewrite Hx, IH. reflexivity.
Qed.

(** Elements that encode once the encoder may go as deep as they are
    nested all encode at a depth that bounds the nesting of each. *)
Lemma encode_items (f : nat -> PyVal -> result string) (l : list PyVal)
    (d : nat) :
  Forall (fun x => forall depth, (nesting x <= depth)%nat ->
                   f depth x = Ok (json_text x)) l ->
  (foldr Nat.max O (map nesting l) <= d)%nat ->
  Forall (fun x => f d x = Ok (json_text x)) l.
Proof.
  induction 1 as [|x l Hx Hl IH]; intros Hd; constructor;
    cbn [map foldr] in Hd.
  - apply Hx. lia.
  - apply IH. lia.
Qed.

Lemma encode_list_enough (l : list PyVal) (depth : nat) :
  Forall (fun x => forall depth, (nesting x <= depth)%nat ->
                   JSONEncoder.encode _JSONObjectEncoder.default depth x
                     = Ok (json_text x)) l ->
  (S (foldr Nat.max O (map nesting l)) <= depth)%nat ->
  JSONEncoder.encode _JSONObjectEncoder.default depth (PList l)
    = Ok (json_text (PList l)).
Proof.
  intros IH Hd. destruct depth as [|d]; [lia|].
  cbn [JSONEncoder.encode json_text]. unfold mbind, result_bind, rbind.
  rewrite (result_map_ok _ json_text); [reflexivity|].
  apply (encode_items (JSONEncoder.encode _JSONObjectEncoder.default));
    [exact IH | lia].
Qed.

(** Enough depth gives the text: the encoder, calling the hook at every
    set and frozenset, comes to [json_text]. *)
Lemma encode_enough v :
  forall depth, (nesting v <= depth)%nat ->
  JSONEncoder.encode _JSONObjectEncoder.default depth v = Ok (json_text v).
Proof.
  induction v as [| b | z | s | l IH | d IH | l IH | l IH]
    using PyVal_nested_ind; intros depth Hd.
  - destruct depth; [cbn in Hd; lia | reflexivity].
  - destruct depth; [cbn in Hd; lia | destruct b; reflexivity].
  - destruct depth; [cbn in Hd; lia | reflexivity].
  - destruct depth; [cbn in Hd; lia | reflexivity].
  - apply encode_list_enough; [exact IH | exact Hd].
  - cbn [nesting] in Hd. destruct depth as [|n]; [lia|].
    cbn [JSONEncoder.encode json_text]. unfold mbind, result_bind, rbind.
    rewrite (result_map_ok _ (fun kv => encode_basestring_ascii (fst kv)
                                          +:+ ": " +:+ json_text (snd kv)));
      [reflexivity|].
    assert (Hn : (foldr Nat.max O (map (fun kv => nesting (snd kv)) d) <= n)%nat)
      by lia.
    clear Hd. induction IH as [|kv d Hkv Hd' IHd]; constructor;
      cbn [map foldr] in Hn.
    + rewrite Hkv by lia. reflexivity.
    + apply IHd. lia.
  - cbn [nesting] in Hd. destruct depth as [|n]; [lia|].
    cbn [JSONEncoder.encode _JSONObjectEncoder.default].
    unfold mbind, result_bind, rbind.
    rewrite encode_list_enough; [reflexivity | exact IH | lia].
  - cbn [nesting] in Hd. destruct depth as [|n]; [lia|].
    cbn [JSONEncoder.encode _JSONObjectEncoder.default].
    unfold mbind, result_bind, rbind.
    rewrite encode_list_enough; [reflexivity | exact IH | lia].
Qed.

Lemma dumps_text v : dumps v = Ok (json_text v).
Proof. apply encode_enough. reflexivity. Qed.

(** ** The call path, step by step *)

Lemma call_request_posted self method args r :
  SDKBaseClient._call_request self (url self) method args None r
    = Ok (request_with_id self method args r).
Proof.
  unfold SDKBaseClient._call_request, request_with_id, envelope.
  rewrite dumps_text. reflexivity.
Qed.

Lemma call_method_run self method args service_ver w :
  SDKBaseClient.call_method self method args service_ver w =
    (rbind (network w (posted w self method args)) SDKBaseClient._call_response,
     after_call w (posted w self method args)).
Proof.
  unfold SDKBaseClient.call_method, SDKBaseClient._call, posted, after_call.
  unfold mbind at 1 2 3. unfold M_bind, random_random_str, requests_post, lift.
  cbn [draws randoms environ network sent].
  rewrite call_request_posted.
  destruct (network w _); reflexivity.
Qed.

Lemma call_method_receives self method args service_ver w ret :
  receives w self method args ret ->
  fst (SDKBaseClient.call_method self method args service_ver w)
    = SDKBaseClient._call_response ret.
Proof.
  intros Hnet. rewrite call_method_run. unfold receives in Hnet.
  rewrite Hnet. reflexivity.
Qed.

Lemma response_500_json ret :
  status_code ret = 500 ->
  headers ret !! "content-type" = Some "application/json" ->
  SDKBaseClient._call_response ret =
    (err ← json ret;
     has ← py_in "error" err;
     if has : bool then
       kw ← py_getitem err "error";
       e ← ServerError.call_kwargs kw;
       Raise (ServerErrorExc e)
     else
       Raise (SDKBaseClient.unknown
                ("The server returned unexpected error JSON: " +:+ text ret))).
Proof.
  intros Hs Hct. unfold SDKBaseClient._call_response.
  rewrite Hs. change (500 =? 500)%Z with true. cbv iota.
  rewrite bool_decide_eq_true_2 by exact Hct. reflexivity.
Qed.

Lemma response_500_other ret :
  status_code ret = 500 ->
  headers ret !! "content-type" <> Some "application/json" ->
  SDKBaseClient._call_response ret =
    Raise (SDKBaseClient.unknown
             ("The server returned a non-JSON response: " +:+ text ret)).
Proof.
  intros Hs Hct. unfold SDKBaseClient._call_response.
  rewrite Hs. change (500 =? 500)%Z with true. cbv iota.
  rewrite bool_decide_eq_false_2 by exact Hct. reflexivity.
Qed.

Lemma response_ok ret :
  status_code ret <> 500 ->
  ok ret = true ->
  SDKBaseClient._call_response ret =
    (resp ← json ret;
     has ← py_in "result" resp;
     if negb has then
       Raise (SDKBaseClient.unknown "An unknown server error occurred")
     else
       res ← py_getitem resp "result";
       if negb (truthy res) then Ok PNone
       else
         n ← py_len res;
         if (n =? 1)%Z then py_getitem0 res else Ok res).
Proof.
  intros Hs Hok. unfold SDKBaseClient._call_response.
  apply Z.eqb_neq in Hs. rewrite Hs, Hok. reflexivity.
Qed.

Lemma dict_get_in k d :
  bool_decide (is_Some (dict_get k d)) =
    match dict_get k d with Some _ => true | None => false end.
Proof.
  destruct (dict_get k d).
  - apply bool_decide_eq_true_2. eauto.
  - apply bool_decide_eq_false_2. intros [x Hx]. discriminate.
Qed.

Lemma ok_false_raises ret :
  ok ret = false -> raise_for_status ret = Raise (HTTPError ret).
Proof.
  unfold ok, raise_for_status.
  destruct (_ && _); [reflexivity | discriminate].
Qed.

Lemma init_message n c m d e :
  message (ServerError.__init__ n c (of_opt m) d e) = PStr (default "" m).
Proof. destruct m; reflexivity. Qed.

Lemma init_data n c m dat err :
  data (ServerError.__init__ n c m (of_opt dat) (of_opt err))
    = PStr (first_nonempty dat err).
Proof.
  destruct dat as [[|a d]|], err as [[|b e]|]; reflexivity.
Qed.

Lemma append_assoc (a b c : string) : (a +:+ b) +:+ c = a +:+ (b +:+ c).
Proof.
  induction a as [|x a IH]; [reflexivity|].
  change (String x ((a +:+ b) +:+ c) = String x (a +:+ (b +:+ c))).
  f_equal. exact IH.
Qed.

Lemma str_of_typed n c ms ds :
  ServerError.__str__
    {| name := PStr n; code := PInt c; message := PStr ms; data := PStr ds |}
  = Ok (n +:+ ": " +:+ str_of_int c +:+ ". " +:+ ms +:+ NL +:+ ds).
Proof.
  unfold ServerError.__str__, py_add_str. simpl.
  rewrite !append_assoc. reflexivity.
Qed.

Lemma call_kwargs_bound e n c m :
  Forall (fun k => k ∈ ServerError.parameters) (map fst e) ->
  dict_get "name" e = Some n ->
  dict_get "code" e = Some c ->
  dict_get "message" e = Some m ->
  ServerError.call_kwargs (PDict e) =
    Ok (ServerError.__init__ n c m (default PNone (dict_get "data" e))
                                   (default PNone (dict_get "error" e))).
Proof.
  intros Hkeys Hn Hc Hm. unfold ServerError.call_kwargs.
  rewrite Hn, Hc, Hm.
  replace (forallb _ _) with true; [reflexivity|].
  symmetry. apply forallb_forall. intros k Hk.
  apply bool_decide_eq_true_2.
  rewrite List.Forall_forall in Hkeys. auto.
Qed.

(** ** Server errors *)

(** C1. A response with status 500 and content-type application/json whose
    body parses to an object with an "error" key, the value of which holds
    name (a string), code (an integer), message (a string or null) and
    possibly data or error (strings) and nothing else, makes the call raise
    the [ServerError] built from those fields: its name and code are the
    ones sent, its message and data are strings, and its string form is
    name, colon, code, period, message, newline, data. *)
Theorem C1_server_error_from_error_object
    self method args service_ver w ret body e
    (n : string) (c : Z) (m dat err : option string) :
  receives w self method args ret ->
  status_code ret = 500 ->
  headers ret !! "content-type" = Some "application/json" ->
  json_body ret = Some (PDict body) ->
  dict_get "error" body = Some (PDict e) ->
  Forall (fun k => k ∈ ServerError.parameters) (map fst e) ->
  dict_get "name" e = Some (PStr n) ->
  dict_get "code" e = Some (PInt c) ->
  dict_get "message" e = Some (of_opt m) ->
  dict_get "data" e = PStr <$> dat ->
  dict_get "error" e = PStr <$> err ->
  let raised :=
    ServerError.__init__ (PStr n) (PInt c) (of_opt m) (of_opt dat) (of_opt err) in
  fst (SDKBaseClient.call_method self method args service_ver w)
    = Raise (ServerErrorExc raised)
  /\ name raised = PStr n
  /\ code raised = PInt c
  /\ message raised = PStr (default "" m)
  /\ data raised = PStr (first_nonempty dat err)
  /\ ServerError.__str__ raised =
       Ok (n +:+ ": " +:+ str_of_int c +:+ ". " +:+ default "" m +:+ NL
             +:+ first_nonempty dat err).
Proof.
  intros Hrecv Hs Hct Hbody Herr Hkeys Hn Hc Hm Hd He raised.
  assert (Hmsg : message raised = PStr (default "" m)) by apply init_message.
  assert (Hdat : data raised = PStr (first_nonempty dat err)) by apply init_data.
  split.
  - rewrite (call_method_receives _ _ _ _ _ _ Hrecv).
    rewrite (response_500_json _ Hs Hct).
    unfold json, mbind, result_bind, rbind, py_in, py_getitem.
    rewrite Hbody, dict_get_in, Herr.
    rewrite (call_kwargs_bound _ _ _ _ Hkeys Hn Hc Hm), Hd, He.
    destruct dat, err; reflexivity.
  - repeat split; try assumption.
    replace raised with
      {| name := PStr n; code := PInt c; message := PStr (default "" m);
         data := PStr (first_nonempty dat err) |}.
    + apply str_of_typed.
    + rewrite <- Hmsg, <- Hdat. reflexivity.
Qed.

Lemma C1_witness :
  let ret := json_response 500 "(the body)"
               (Some (PDict [("error", PDict [("name", PStr "E");
                                              ("code", PInt (-1));
                                              ("message", PStr "m");
                                              ("data", PStr "d")])])) in
  let raised :=
    {| name := PStr "E"; code := PInt (-1); message := PStr "m";
       data := PStr "d" |} in
  fst (SDKBaseClient.call_method (plain_client "https://ci.kbase.us/services/ws")
         "Workspace.ver" [] None (answering ret))
    = Raise (ServerErrorExc raised)
  /\ ServerError.__str__ raised = Ok ("E: -1. m" +:+ NL +:+ "d").
Proof.
  intros ret raised.
  pose proof (C1_server_error_from_error_object
                (plain_client "https://ci.kbase.us/services/ws")
                "Workspace.ver" [] None (answering ret) ret
                [("error", PDict [("name", PStr "E"); ("code", PInt (-1));
                                  ("message", PStr "m"); ("data", PStr "d")])]
                [("name", PStr "E"); ("code", PInt (-1));
                 ("message", PStr "m"); ("data", PStr "d")]
                "E" (-1) (Some "m") (Some "d") None) as H.
  destruct H as (Hcall & _ & _ & _ & _ & Hstr); try reflexivity.
  - repeat constructor; apply (bool_decide_unpack _); vm_compute; exact I.
  - split; [exact Hcall | exact Hstr].
Defined.

Lemma unknown_is_unknown_error msg :
  SDKBaseClient.unknown msg = unknown_error msg.
Proof. reflexivity. Qed.

(** ** Result decoding *)

(** C2. For a response that is not a 500, has an OK status and whose body
    parses to an object: an empty "result" array gives [None], an array of
    one element gives that element, a longer array gives the whole array in
    its order, and a missing "result" key raises the [ServerError] named
    "Unknown" with code 0, the message "An unknown server error occurred"
    and empty data. *)
Theorem C2_result_decoding self method args service_ver w ret body :
  receives w self method args ret ->
  status_code ret <> 500 ->
  ok ret = true ->
  json_body ret = Some (PDict body) ->
  let out := fst (SDKBaseClient.call_method self method args service_ver w) in
  (dict_get "result" body = Some (PList []) -> out = Ok PNone)
  /\ (forall x, dict_get "result" body = Some (PList [x]) -> out = Ok x)
  /\ (forall l, dict_get "result" body = Some (PList l) ->
                (1 < length l)%nat -> out = Ok (PList l))
  /\ (dict_get "result" body = None ->
      out = Raise (unknown_error "An unknown server error occurred")).
Proof.
  intros Hrecv Hs Hok Hbody out. subst out.
  rewrite (call_method_receives _ _ _ _ _ _ Hrecv), (response_ok _ Hs Hok).
  unfold json, mbind, result_bind, rbind, py_in, py_getitem.
  rewrite Hbody, dict_get_in.
  repeat split.
  - intros ->. reflexivity.
  - intros x ->. reflexivity.
  - intros l -> Hlen. destruct l as [|x [|y l]]; simpl in Hlen; try lia.
    cbn [negb truthy py_len].
    destruct (Z.eqb_spec (Z.of_nat (length (x :: y :: l))) 1) as [E|E];
      [simpl in E; lia | reflexivity].
  - intros ->. reflexivity.
Qed.

Lemma C2_witness :
  fst (SDKBaseClient.call_method (plain_client "https://ci.kbase.us/services/ws")
         "Workspace.ver" [] None
         (answering (json_response 200 "(the body)"
                       (Some (PDict [("version", PStr "1.1");
                                     ("result", PList [PStr "0.14.2"])])))))
    = Ok (PStr "0.14.2").
Proof.
  refine (proj1 (proj2 (C2_result_decoding _ _ _ _ _ _ _ _ _ _ _)) _ _);
    first [reflexivity | discriminate].
Defined.

(** ** Other HTTP failures *)

Lemma ok_false_iff ret :
  ok ret = false <-> 400 <= status_code ret < 600.
Proof.
  unfold ok, raise_for_status.
  destruct (Z.leb_spec 400 (status_code ret)), (Z.ltb_spec (status_code ret) 600);
    simpl; split; intros; try lia; try discriminate; reflexivity.
Qed.



(** ** Bodies that cannot be read *)

(** C3, as the claim has it, fails: a 500 response that announces
    application/json and whose body is not JSON makes [ret.json()] raise,
    nothing catches it, and the caller gets the decoder's exception, not a
    [ServerError]. The same holds for an OK response whose body is not
    JSON. *)
Lemma C3_counterexample :
  let client := plain_client "http://localhost:31590/other" in
  let out500 :=
    fst (SDKBaseClient.call_method client "Workspace.ver" [] None
           (answering (json_response 500 "Don't call this endpoint chum" None))) in
  let out200 :=
    fst (SDKBaseClient.call_method client "Workspace.ver" [] None
           (answering (json_response 200 "<html>hello</html>" None))) in
  (out500 = Raise JSONDecodeError /\ ~ is_ServerError out500)
  /\ (out200 = Raise JSONDecodeError /\ ~ is_ServerError out200).
Proof.
  cbv zeta. repeat split; try reflexivity; intros [e He]; discriminate.
Qed.

(** C3, amended. A response the call receives is turned into the
    [ServerError] named "Unknown" with code 0 when its status is 500 and its
    content-type is not application/json, when its status is 500, its
    content-type is application/json and its body parses to an object
    without an "error" key, and when its status is OK and its body parses to
    an object without a "result" key. When the body of a 500
    application/json response or of an OK response is not JSON, the
    exception of [ret.json()] reaches the caller. *)
Theorem C3_unexpected_bodies self method args service_ver w ret :
  receives w self method args ret ->
  let out := fst (SDKBaseClient.call_method self method args service_ver w) in
  (status_code ret = 500 ->
   headers ret !! "content-type" <> Some "application/json" ->
   out = Raise (unknown_error
                  ("The server returned a non-JSON response: " +:+ text ret)))
  /\ (status_code ret = 500 ->
      headers ret !! "content-type" = Some "application/json" ->
      forall body, json_body ret = Some (PDict body) ->
      dict_get "error" body = None ->
      out = Raise (unknown_error
                     ("The server returned unexpected error JSON: "
                        +:+ text ret)))
  /\ (status_code ret <> 500 -> ok ret = true ->
      forall body, json_body ret = Some (PDict body) ->
      dict_get "result" body = None ->
      out = Raise (unknown_error "An unknown server error occurred"))
  /\ (json_body ret = None ->
      (status_code ret = 500
       /\ headers ret !! "content-type" = Some "application/json")
      \/ (status_code ret <> 500 /\ ok ret = true) ->
      out = Raise JSONDecodeError).
Proof.
  intros Hrecv out. subst out.
  rewrite (call_method_receives _ _ _ _ _ _ Hrecv).
  repeat split.
  - intros Hs Hct. now rewrite (response_500_other _ Hs Hct).
  - intros Hs Hct body Hbody Herr. rewrite (response_500_json _ Hs Hct).
    unfold json, mbind, result_bind, rbind, py_in.
    rewrite Hbody, dict_get_in, Herr. reflexivity.
  - intros Hs Hok body Hbody Hres. rewrite (response_ok _ Hs Hok).
    unfold json, mbind, result_bind, rbind, py_in.
    rewrite Hbody, dict_get_in, Hres. reflexivity.
  - intros Hbody [[Hs Hct] | [Hs Hok]].
    + rewrite (response_500_json _ Hs Hct). unfold json. now rewrite Hbody.
    + rewrite (response_ok _ Hs Hok). unfold json. now rewrite Hbody.
Qed.

Lemma C3_witness :
  let body_text := "{" +:+ DQUOTE +:+ "oops" +:+ DQUOTE +:+ ": " +:+ DQUOTE
                     +:+ "no error key" +:+ DQUOTE +:+ "}" in
  fst (SDKBaseClient.call_method
         (plain_client "http://localhost:31590/missing-error")
         "Workspace.ver" [] None
         (answering (json_response 500 body_text
                       (Some (PDict [("oops", PStr "no error key")])))))
    = Raise (unknown_error
               ("The server returned unexpected error JSON: " +:+ body_text)).
Proof.
  intros body_text.
  refine (proj1 (proj2 (C3_unexpected_bodies _ _ _ _ _
                          (json_response 500 body_text
                             (Some (PDict [("oops", PStr "no error key")])))
                          _)) _ _ _ _ _);
    reflexivity.
Defined.

(** ** The fields of a [ServerError] *)

(** C4, as the claim has it, fails: when the server sends an empty data
    and a non-empty error, the data field is present and comes first, yet
    the exception keeps the error string. *)
Lemma C4_counterexample :
  let e := ServerError.__init__ (PStr "JSONRPCError") (PInt (-32500))
             (PStr "m") (of_opt (Some "")) (of_opt (Some "trace")) in
  data e = PStr "trace"
  /\ first_present (Some "") (Some "trace") = ""
  /\ data e <> PStr (first_present (Some "") (Some "trace")).
Proof. cbv zeta. repeat split. discriminate. Qed.

(** C4, amended. Whatever the server sends (a message that may be null,
    data and error strings that may each be absent), the message and the
    data of the constructed [ServerError] are strings: the message is the
    empty string when the server's message is null and the server's message
    otherwise, and the data is the first of the data and error fields that
    is present and not empty, or the empty string when there is none. *)
Theorem C4_init_strings (n c : PyVal) (m dat err : option string) :
  let e := ServerError.__init__ n c (of_opt m) (of_opt dat) (of_opt err) in
  message e = PStr (default "" m)
  /\ data e = PStr (first_nonempty dat err)
  /\ (forall d, dat = Some d -> d <> "" -> data e = PStr d)
  /\ (forall x, dat = None \/ dat = Some "" -> err = Some x -> x <> "" ->
                data e = PStr x)
  /\ (dat = None \/ dat = Some "" -> err = None \/ err = Some "" ->
      data e = PStr "").
Proof.
  intros e. subst e. rewrite init_message, init_data.
  repeat split.
  - intros d -> Hd. destruct d; [congruence | reflexivity].
  - intros x [-> | ->] -> Hx; (destruct x; [congruence | reflexivity]).
  - intros [-> | ->] [-> | ->]; reflexivity.
Qed.

(** ** Construction *)

Section Construction_facts.

Variable urlparse : string -> result string.

Lemma init_run s t explicit trust lookup ms scale max_ms w :
  SDKBaseClient.__init__ urlparse (Some s) t explicit trust lookup
    ms scale max_ms w =
  (sch ← urlparse s;
   if bool_decide (sch ∉ _URL_SCHEME)
   then Raise (ValueError (s +:+ " isn't a valid http url"))
   else
     n ← py_int t;
     a ← div_1000 ms;
     b ← div_1000 max_ms;
     if (n <? 1)%Z
     then Raise (ValueError "Timeout value must be at least 1 second")
     else Ok {| url := s;
                timeout := n;
                _headers := auth_headers (resolved_token explicit w);
                trust_all_ssl_certificates := trust;
                lookup_url := lookup;
                async_job_check_time := a;
                async_job_check_time_scale_percent := scale;
                async_job_check_max_time := b;
                token := resolved_token explicit w |},
   w).
Proof.
  unfold SDKBaseClient.__init__.
  unfold mbind at 1. unfold M_bind, lift.
  destruct (urlparse s) as [sch|e]; [|reflexivity].
  cbn [mbind result_bind rbind].
  destruct (bool_decide (sch ∉ _URL_SCHEME)); [reflexivity|].
  unfold mbind at 1. unfold M_bind.
  destruct (py_int t) as [n|e]; [|reflexivity].
  unfold mbind at 1. unfold M_bind.
  destruct (div_1000 ms) as [a|e]; [|reflexivity].
  unfold mbind at 1. unfold M_bind.
  destruct (div_1000 max_ms) as [b|e]; [|reflexivity].
  cbn [mbind result_bind rbind].
  unfold mbind, M_bind, mret, M_ret, environ_contains, environ_get, raise.
  destruct explicit as [tok|]; cbn [resolved_token].
  - destruct (n <? 1)%Z; [reflexivity|].
    destruct tok; reflexivity.
  - destruct (environ w !! "KB_AUTH_TOKEN") as [tok|] eqn:Henv.
    + rewrite bool_decide_eq_true_2 by eauto. rewrite Henv.
      destruct (n <? 1)%Z; [reflexivity|].
      destruct tok; reflexivity.
    + rewrite bool_decide_eq_false_2 by (intros [x Hx]; discriminate).
      destruct (n <? 1)%Z; reflexivity.
Qed.

(** What a successful construction went through, and the client it made. *)
Lemma init_ok_inv u t explicit trust lookup ms scale max_ms w c :
  fst (SDKBaseClient.__init__ urlparse u t explicit trust lookup
         ms scale max_ms w) = Ok c ->
  exists s sch n a b,
    u = Some s
    /\ urlparse s = Ok sch /\ sch ∈ _URL_SCHEME
    /\ py_int t = Ok n /\ 1 <= n
    /\ div_1000 ms = Ok a /\ div_1000 max_ms = Ok b
    /\ c = {| url := s;
              timeout := n;
              _headers := auth_headers (resolved_token explicit w);
              trust_all_ssl_certificates := trust;
              lookup_url := lookup;
              async_job_check_time := a;
              async_job_check_time_scale_percent := scale;
              async_job_check_max_time := b;
              token := resolved_token explicit w |}.
Proof.
  destruct u as [s|]; [|discriminate].
  rewrite init_run. cbn [fst]. unfold mbind, result_bind, rbind.
  destruct (urlparse s) as [sch|] eqn:Hparse; [|discriminate].
  destruct (bool_decide (sch ∉ _URL_SCHEME)) eqn:Hscheme; [discriminate|].
  apply bool_decide_eq_false_1 in Hscheme.
  destruct (py_int t) as [n|] eqn:Hint; [|discriminate].
  destruct (div_1000 ms) as [a|] eqn:Ha; [|discriminate].
  destruct (div_1000 max_ms) as [b|] eqn:Hb; [|discriminate].
  destruct (Z.ltb_spec n 1) as [Hlt | Hge]; [discriminate|].
  intros [= <-]. exists s, sch, n, a, b.
  assert (sch ∈ _URL_SCHEME) as Hin
    by (destruct (decide (sch ∈ _URL_SCHEME)); [assumption | contradiction]).
  repeat (split; [first [reflexivity | assumption]|]).
  reflexivity.
Qed.

Lemma div_1000_fits n :
  (fits_float n -> exists q, div_1000 n = Ok q)
  /\ (~ fits_float n ->
      div_1000 n = Raise (OverflowError "int too large to convert to float")).
Proof.
  unfold div_1000, fits_float.
  destruct (Z.leb_spec float_limit (Z.abs n)); split; intros; eauto; lia.
Qed.

Lemma py_int_value_error t msg :
  py_int t = Raise (ValueError msg) -> t = NNaN.
Proof. destruct t; cbn; intros H; try discriminate H; reflexivity. Qed.

Ltac c5_leaf :=
  repeat match goal with
         | |- _ /\ _ => split
         | |- _ <-> _ => split
         end;
  intros;
  repeat match goal with
         | H : _ \/ _ |- _ => destruct H
         | H : ex _ |- _ => destruct H
         | H : _ /\ _ |- _ => destruct H
         end;
  simplify_eq;
  repeat match goal with
         | H1 : ?a = _, H2 : ?a = _ |- _ => rewrite H1 in H2; simplify_eq
         end;
  repeat match goal with
         | H : py_int NNaN = _ |- _ => cbn [py_int] in H; simplify_eq
         end;
  try solve [ reflexivity | congruence | contradiction
            | unfold fits_float in *; lia
            | eauto 15 using py_int_value_error ].

(** C5, amended. Construction fails with a [ValueError] exactly when the
    url is [None], or [urlparse] refuses the url with a [ValueError] of its
    own, or the scheme it finds is not http or https (the message then
    starts with the url given), or, the url having passed, the timeout is
    NaN, or the timeout converts to an integer below 1 while both
    job-check times convert to a float. An exception of [urlparse] or of a
    conversion reaches the caller as it is: an infinite timeout and a
    job-check time too large for a float fail with [OverflowError].
    Construction leaves the world as it was, nothing is posted, and a
    client is made exactly when the url, its scheme and the conversions
    pass and the timeout converts to an integer of at least 1. *)
Theorem C5_construction_fails_exactly
    (u : option string) (t : PyNum) (explicit : option string)
    (trust lookup : bool) (ms scale max_ms : Z) (w : World) :
  let run := SDKBaseClient.__init__ urlparse u t explicit trust lookup
               ms scale max_ms w in
  let invalid :=
    u = None
    \/ (exists s, u = Some s /\
         ((exists msg, urlparse s = Raise (ValueError msg))
          \/ (exists sch, urlparse s = Ok sch /\ sch ∉ _URL_SCHEME)
          \/ (exists sch, urlparse s = Ok sch /\ sch ∈ _URL_SCHEME /\
               (t = NNaN
                \/ (exists n, py_int t = Ok n /\ n < 1
                               /\ fits_float ms /\ fits_float max_ms))))) in
  let valid :=
    exists s sch n,
      u = Some s /\ urlparse s = Ok sch /\ sch ∈ _URL_SCHEME
      /\ py_int t = Ok n /\ 1 <= n /\ fits_float ms /\ fits_float max_ms in
  ((exists msg, fst run = Raise (ValueError msg)) <-> invalid)
  /\ ((exists c, fst run = Ok c) <-> valid)
  /\ (u = None -> fst run = Raise (ValueError "A url is required"))
  /\ (forall s e, u = Some s -> urlparse s = Raise e -> fst run = Raise e)
  /\ (forall s sch, u = Some s -> urlparse s = Ok sch -> sch ∉ _URL_SCHEME ->
      fst run = Raise (ValueError (s +:+ " isn't a valid http url")))
  /\ (forall s sch e, u = Some s -> urlparse s = Ok sch -> sch ∈ _URL_SCHEME ->
      py_int t = Raise e -> fst run = Raise e)
  /\ (forall s sch n, u = Some s -> urlparse s = Ok sch -> sch ∈ _URL_SCHEME ->
      py_int t = Ok n -> ~ fits_float ms \/ ~ fits_float max_ms ->
      fst run = Raise (OverflowError "int too large to convert to float"))
  /\ (forall s sch n, u = Some s -> urlparse s = Ok sch -> sch ∈ _URL_SCHEME ->
      py_int t = Ok n -> fits_float ms -> fits_float max_ms -> n < 1 ->
      fst run = Raise (ValueError "Timeout value must be at least 1 second"))
  /\ (invalid -> forall c, fst run <> Ok c)
  /\ snd run = w
  /\ sent (snd run) = sent w.
Proof.
  intros run invalid valid. subst run invalid valid.
  destruct u as [s|].
  2: { cbn [SDKBaseClient.__init__ raise fst snd].
       split; [split; [intros _; left; reflexivity | intros _; eauto]|].
       split; [split; [intros [c Hc]; discriminate
                      | intros (s & sch & n & Hu & _); discriminate]|].
       split; [reflexivity|].
       do 5 (split; [intros; discriminate|]).
       split; [intros _ c; discriminate|]. split; reflexivity. }
  rewrite init_run. cbn [fst snd]. unfold mbind, result_bind, rbind.
  destruct (urlparse s) as [sch|e] eqn:Hparse.
  2: { c5_leaf. }
  destruct (decide (sch ∈ _URL_SCHEME)) as [Hin|Hnin].
  2: { rewrite bool_decide_eq_true_2 by exact Hnin. c5_leaf. }
  rewrite bool_decide_eq_false_2 by (intros Hnot; exact (Hnot Hin)).
  destruct (py_int t) as [n|e] eqn:Hint.
  2: { c5_leaf. }
  destruct (div_1000_fits ms) as [Hms Hms'].
  destruct (div_1000_fits max_ms) as [Hmax Hmax'].
  destruct (Z_lt_dec (Z.abs ms) float_limit) as [Fms|Fms].
  2: { rewrite (Hms' Fms). c5_leaf. }
  destruct (Hms Fms) as [a ->].
  destruct (Z_lt_dec (Z.abs max_ms) float_limit) as [Fmax|Fmax].
  2: { rewrite (Hmax' Fmax). c5_leaf. }
  destruct (Hmax Fmax) as [b ->].
  destruct (Z.ltb_spec n 1) as [Hlt|Hge]; c5_leaf.
Qed.

(** C6, amended. When construction succeeds: a token passed explicitly
    is the one resolved, whatever the environment holds; without one, the
    token is what [KB_AUTH_TOKEN] holds, if anything; a resolved token
    that is not empty is the value of the "AUTHORIZATION" header, as it
    is, and the only header; and when no token or the empty token is
    resolved, there is no header at all. *)
Theorem C6_token_and_header
    (u : option string) (t : PyNum) (explicit : option string)
    (trust lookup : bool) (ms scale max_ms : Z) (w : World)
    (c : SDKBaseClient) :
  fst (SDKBaseClient.__init__ urlparse u t explicit trust lookup
         ms scale max_ms w) = Ok c ->
  (forall tok, explicit = Some tok -> token c = Some tok)
  /\ (explicit = None -> token c = environ w !! "KB_AUTH_TOKEN")
  /\ (forall tok, token c = Some tok -> tok <> "" ->
      _headers c = {[ "AUTHORIZATION" := tok ]}
      /\ _headers c !! "AUTHORIZATION" = Some tok)
  /\ (token c = None \/ token c = Some "" -> _headers c = ∅).
Proof.
  intros Hmade.
  apply init_ok_inv in Hmade
    as (s & sch & n & a & b & _ & _ & _ & _ & _ & _ & _ & ->).
  cbn [token _headers].
  split; [intros tok ->; reflexivity|].
  split; [intros ->; reflexivity|].
  split.
  - intros tok Htok Hne. rewrite Htok.
    destruct tok; [congruence|].
    split; [reflexivity | apply lookup_singleton_eq].
  - intros [-> | ->]; reflexivity.
Qed.

(** C10. A client constructed with the empty string as its token keeps
    the empty string as its token, whatever [KB_AUTH_TOKEN] holds, has no
    headers, and so posts no AUTHORIZATION header. *)
Theorem C10_empty_token_suppresses_env
    (u : option string) (t : PyNum) (trust lookup : bool)
    (ms scale max_ms : Z) (w : World) (c : SDKBaseClient) :
  fst (SDKBaseClient.__init__ urlparse u t (Some "") trust lookup
         ms scale max_ms w) = Ok c ->
  token c = Some ""
  /\ _headers c = ∅
  /\ _headers c !! "AUTHORIZATION" = None
  /\ (forall method args service_ver w',
        exists q,
          sent (snd (SDKBaseClient.call_method c method args service_ver w'))
            = (sent w' ++ [q])%list
          /\ req_headers q !! "AUTHORIZATION" = None).
Proof.
  intros Hmade.
  apply init_ok_inv in Hmade
    as (s & sch & n & a & b & _ & _ & _ & _ & _ & _ & _ & ->).
  cbn [token _headers resolved_token auth_headers].
  split; [reflexivity|]. split; [reflexivity|]. split; [reflexivity|].
  intros method args service_ver w'. eexists.
  rewrite call_method_run. cbn [sent snd]. split; reflexivity.
Qed.

End Construction_facts.

(** The cases of [test_construct_fail]; 0.999999 is the float
    9007190247541737 * 2^-53. *)
Example construct_fail_cases :
  let fails u t msg :=
    fst (construct u t None (answering version_response))
      = Raise (ValueError msg) in
  fails None (NInt 1) "A url is required"
  /\ fails (Some "ftp://foo.com/bar") (NInt 1)
       "ftp://foo.com/bar isn't a valid http url"
  /\ Forall (fun t => fails (Some "http://example.com") t
                        "Timeout value must be at least 1 second")
       [NFloat 9007190247541737 (-53); NInt 0; NInt (-1); NInt (-1000)].
Proof. cbv zeta. repeat split. repeat constructor. Qed.

(** C5, as the claim has it, fails. The url [http://[::1] is not [None]
    and [urlparse] finds no scheme in it to test: it refuses the url, and
    construction fails with that [ValueError], whose message does not cite
    the url, though the timeout is 1800. And with a url whose scheme is
    http, a timeout that is NaN converts to no integer, below 1 or not, and
    construction fails with the [ValueError] of the conversion. *)
Lemma C5_counterexample :
  (fst (construct (Some "http://[::1") (NInt 1800) None
          (answering version_response))
     = Raise (ValueError "Invalid IPv6 URL")
   /\ urlparse_scheme "http://[::1" = Raise (ValueError "Invalid IPv6 URL")
   /\ py_int (NInt 1800) = Ok 1800)
  /\ (fst (construct (Some "http://example.com") NNaN None
             (answering version_response))
        = Raise (ValueError "cannot convert float NaN to integer")
      /\ urlparse_scheme "http://example.com" = Ok "http"
      /\ "http" ∈ _URL_SCHEME
      /\ py_int NNaN = Raise (ValueError "cannot convert float NaN to integer")).
Proof.
  split; [split; [|split] | split; [|split; [|split]]];
    first [ vm_compute; reflexivity
          | apply (bool_decide_unpack _); vm_compute; exact I ].
Qed.

(** C6, as the claim has it, fails: with the empty string passed as the
    token (and a token in the environment), the explicit token is the one
    resolved, as the claim says, and yet no AUTHORIZATION header carries
    it. *)
Lemma C6_counterexample :
  exists c,
    fst (construct (Some "https://ci.kbase.us/services/ws") (NInt 1800)
           (Some "") (with_env_token "envtoken" version_response)) = Ok c
    /\ token c = Some ""
    /\ _headers c !! "AUTHORIZATION" <> Some "".
Proof. eexists. split; [reflexivity|]. split; [reflexivity | discriminate]. Qed.

Lemma C6_witness :
  exists c,
    fst (construct (Some "https://ci.kbase.us/services/ws") (NInt 1800)
           (Some "explicit") (with_env_token "envtoken" version_response))
      = Ok c
    /\ token c = Some "explicit"
    /\ _headers c !! "AUTHORIZATION" = Some "explicit".
Proof.
  eexists. split; [reflexivity|].
  match goal with
  | |- token ?c = _ /\ _ =>
      pose proof (C6_token_and_header urlparse_scheme
                    (Some "https://ci.kbase.us/services/ws") (NInt 1800)
                    (Some "explicit") false false 100 150 300000
                    (with_env_token "envtoken" version_response) c
                    eq_refl) as (Hexp & _ & Hhdr & _)
  end.
  split; [apply Hexp; reflexivity|].
  apply (Hhdr "explicit"); [reflexivity | discriminate].
Defined.

Lemma C10_witness :
  exists c,
    fst (construct (Some "https://ci.kbase.us/services/ws") (NInt 1800)
           (Some "") (with_env_token "envtoken" version_response)) = Ok c
    /\ token c = Some ""
    /\ _headers c = ∅.
Proof.
  eexists. split; [reflexivity|].
  match goal with
  | |- token ?c = _ /\ _ =>
      pose proof (C10_empty_token_suppresses_env urlparse_scheme
                    (Some "https://ci.kbase.us/services/ws") (NInt 1800)
                    false false 100 150 300000
                    (with_env_token "envtoken" version_response) c
                    eq_refl) as (Htok & Hhdr & _)
  end.
  split; assumption.
Defined.

(** ** Serialization *)

Lemma json_text_sets_to_lists v : json_text (sets_to_lists v) = json_text v.
Proof.
  induction v as [| b | z | s | l IH | d IH | l IH | l IH]
    using PyVal_nested_ind; try reflexivity;
    cbn [json_text sets_to_lists]; rewrite map_map;
    do 3 f_equal; apply map_ext_Forall; try exact IH.
  eapply Forall_impl; [exact IH|]. intros [k x] Hx. simpl in *.
  now rewrite Hx.
Qed.

Lemma dumps_sets_to_lists v : dumps v = dumps (sets_to_lists v).
Proof. rewrite !dumps_text, json_text_sets_to_lists. reflexivity. Qed.

Lemma dumps_items l : result_map dumps l = Ok (map json_text l).
Proof.
  apply result_map_ok. apply Forall_forall. intros x _. apply dumps_text.
Qed.

(** C7. Serialization writes a set and a frozenset as the JSON array of
    its elements, wherever it stands in the arguments. The encoder has no
    case of its own for them: it hands them to its [default] hook and
    encodes what the hook returns; the hook of [_JSONObjectEncoder] returns
    the list of the elements, where the one of [JSONEncoder] raises
    [TypeError]. So [dumps] writes every value, a set as the list of its
    elements is written, the encoding of a value is the encoding of the
    value with every set and frozenset replaced by that list, and the body
    of the request posted is that encoding of the envelope. For the set
    that holds the string a, the array written is ["a"]. *)
Theorem C7_sets_serialize_as_arrays :
  (forall hook depth l,
     JSONEncoder.encode hook (S depth) (PSet l)
       = (o ← hook (PSet l); JSONEncoder.encode hook depth o)
     /\ JSONEncoder.encode hook (S depth) (PFrozenset l)
          = (o ← hook (PFrozenset l); JSONEncoder.encode hook depth o))
  /\ (forall depth l,
        JSONEncoder.encode JSONEncoder.default (S depth) (PSet l)
          = Raise TypeError
        /\ JSONEncoder.encode JSONEncoder.default (S depth) (PFrozenset l)
             = Raise TypeError)
  /\ (forall l,
        _JSONObjectEncoder.default (PSet l) = Ok (PList l)
        /\ _JSONObjectEncoder.default (PFrozenset l) = Ok (PList l)
        /\ dumps (PSet l) = dumps (PList l)
        /\ dumps (PFrozenset l) = dumps (PList l)
        /\ exists items,
             result_map dumps l = Ok items
             /\ dumps (PList l) = Ok ("[" +:+ String.concat ", " items +:+ "]"))
  /\ (forall v, exists text, dumps v = Ok text)
  /\ (forall v, dumps v = dumps (sets_to_lists v))
  /\ (forall self method args service_ver w,
        exists q,
          sent (snd (SDKBaseClient.call_method self method args service_ver w))
            = (sent w ++ [q])%list
          /\ Ok (req_data q)
               = dumps (envelope method args (randoms w (draws w)))
          /\ Ok (req_data q)
               = dumps (envelope method (map sets_to_lists args)
                          (randoms w (draws w))))
  /\ dumps (PSet [PStr "a"]) = Ok ("[" +:+ quoted "a" +:+ "]")
  /\ (exists q,
        sent (snd (SDKBaseClient.call_method
                     (plain_client "https://ci.kbase.us/services/ws")
                     "Workspace.save_objects"
                     [PDict [("method_params", PSet [PStr "a"]);
                             ("intermediate_outgoing", PFrozenset [PStr "b"])]]
                     None (answering version_response))) = [q]
        /\ req_data q =
             "{" +:+ quoted "method" +:+ ": " +:+ quoted "Workspace.save_objects"
             +:+ ", " +:+ quoted "params" +:+ ": [{"
             +:+ quoted "method_params" +:+ ": [" +:+ quoted "a" +:+ "], "
             +:+ quoted "intermediate_outgoing" +:+ ": [" +:+ quoted "b" +:+ "]}], "
             +:+ quoted "version" +:+ ": " +:+ quoted "1.1" +:+ ", "
             +:+ quoted "id" +:+ ": " +:+ quoted "8444218515250481" +:+ "}").
Proof.
  split; [intros hook depth l; split; reflexivity|].
  split; [intros depth l; split; reflexivity|].
  split.
  { intros l. split; [reflexivity|]. split; [reflexivity|].
    split; [rewrite !dumps_text; reflexivity|].
    split; [rewrite !dumps_text; reflexivity|].
    exists (map json_text l). split; [apply dumps_items | apply dumps_text]. }
  split; [intros v; exists (json_text v); apply dumps_text|].
  split; [exact dumps_sets_to_lists|].
  split.
  - intros self method args service_ver w. eexists.
    rewrite call_method_run. cbn [snd after_call sent].
    split; [reflexivity|].
    unfold posted, request_with_id. cbn [req_data].
    split; [symmetry; apply dumps_text|].
    rewrite dumps_text. f_equal.
    rewrite <- (json_text_sets_to_lists (envelope method args _)).
    reflexivity.
  - split; [reflexivity|]. eexists. split; reflexivity.
Qed.

(** ** The service version *)

(** C9. Whatever the method, the arguments and the service version,
    [call_method] posts one request, to the url the client was constructed
    with, and the service version changes neither the request nor the
    result, nor anything else in the world. *)
Theorem C9_service_ver_ignored self method args service_ver w :
  let run := SDKBaseClient.call_method self method args service_ver w in
  (exists q, sent (snd run) = (sent w ++ [q])%list /\ req_url q = url self)
  /\ run = SDKBaseClient.call_method self method args None w
  /\ (forall other, SDKBaseClient.call_method self method args other w = run).
Proof.
  intros run. subst run. repeat split.
  exists (posted w self method args). rewrite call_method_run.
  split; reflexivity.
Qed.

(** * Further properties of the code *)

(** ** Outcomes of a call *)

(** X1. An exception that [requests.post] raises reaches the caller as it
    is; the request counts as posted, and nothing of the response path
    runs. *)
Theorem X1_transport_error_propagates self method args service_ver w e :
  network w (posted w self method args) = Raise e ->
  let run := SDKBaseClient.call_method self method args service_ver w in
  fst run = Raise e
  /\ sent (snd run) = (sent w ++ [posted w self method args])%list.
Proof.
  intros Hnet run. subst run. rewrite call_method_run, Hnet.
  split; reflexivity.
Qed.

Lemma X1_witness :
  fst (SDKBaseClient.call_method (plain_client "https://httpbin.org/delay/10")
         "Workspace.ver" [] None
         (unreachable (TransportError "Read timed out")))
    = Raise (TransportError "Read timed out").
Proof.
  refine (proj1 (X1_transport_error_propagates _ _ _ _ _ _ _)).
  reflexivity.
Defined.

(** Case analysis on every test [_call_response] makes. *)
Ltac response_cases :=
  unfold SDKBaseClient._call_response, json, mbind, result_bind, rbind;
  repeat match goal with
         | |- context [match ?x with _ => _ end] => destruct x eqn:?
         | |- context [if ?x then _ else _] => destruct x eqn:?
         end.

Lemma error_status_not_ok ret :
  error_status (status_code ret) -> ok ret = false.
Proof. intros H. apply ok_false_iff. exact H. Qed.

Lemma error_status_no_value ret :
  error_status (status_code ret) ->
  forall v, SDKBaseClient._call_response ret <> Ok v.
Proof.
  intros Hstatus v.
  pose proof (error_status_not_ok _ Hstatus) as Hok.
  pose proof (ok_false_raises _ Hok) as Hraise.
  unfold SDKBaseClient._call_response.
  destruct (status_code ret =? 500)%Z.
  - response_cases; discriminate.
  - rewrite Hok, Hraise. discriminate.
Qed.

(** X2. A response with a status from 400 to 599, the 500 included, never
    makes the call return a value: whatever its headers and body, the call
    raises. *)
Theorem X2_error_status_always_raises self method args service_ver w ret :
  receives w self method args ret ->
  error_status (status_code ret) ->
  exists e,
    fst (SDKBaseClient.call_method self method args service_ver w) = Raise e.
Proof.
  intros Hrecv Hstatus.
  rewrite (call_method_receives _ _ _ _ _ _ Hrecv).
  destruct (SDKBaseClient._call_response ret) as [v|e] eqn:Hout.
  - exfalso. exact (error_status_no_value _ Hstatus v Hout).
  - exists e. reflexivity.
Qed.

Lemma X2_witness :
  exists e,
    fst (SDKBaseClient.call_method (plain_client "https://ci.kbase.us/services/ws")
           "Workspace.ver" [] None
           (answering (json_response 503 "(the body)"
                         (Some (PDict [("result", PList [PStr "0.14.2"])])))))
      = Raise e.
Proof.
  refine (X2_error_status_always_raises _ _ _ _ _
            (json_response 503 "(the body)"
               (Some (PDict [("result", PList [PStr "0.14.2"])]))) _ _).
  - reflexivity.
  - unfold error_status. simpl. lia.
Defined.

(** X3. When the call returns a value, the response had a status outside
    400 to 599 and a body that parsed to an object with a "result" key, and
    the value is [None] for a falsy result, the first element for a result
    of length one, and the result itself otherwise. *)
Theorem X3_returned_value self method args service_ver w ret v :
  receives w self method args ret ->
  fst (SDKBaseClient.call_method self method args service_ver w) = Ok v ->
  ~ error_status (status_code ret)
  /\ exists body res,
       json_body ret = Some (PDict body)
       /\ dict_get "result" body = Some res
       /\ ((truthy res = false /\ v = PNone)
           \/ (truthy res = true /\ py_len res = Ok 1
               /\ py_getitem0 res = Ok v)
           \/ (truthy res = true
               /\ (exists n, py_len res = Ok n /\ n <> 1) /\ v = res)).
Proof.
  intros Hrecv Hout.
  split.
  - intros Hstatus.
    rewrite (call_method_receives _ _ _ _ _ _ Hrecv) in Hout.
    exact (error_status_no_value _ Hstatus v Hout).
  - rewrite (call_method_receives _ _ _ _ _ _ Hrecv) in Hout.
    unfold SDKBaseClient._call_response in Hout.
    destruct (status_code ret =? 500)%Z.
    { revert Hout. response_cases; discriminate. }
    destruct (ok ret) eqn:Hok;
      [|rewrite (ok_false_raises _ Hok) in Hout; discriminate Hout].
    unfold json, mbind, result_bind, rbind in Hout. cbn [negb] in Hout.
    destruct (json_body ret) as [resp|]; [|discriminate Hout].
    destruct resp as [| b | z | s | l | body | l | l];
      try discriminate Hout;
      try (cbn [py_in py_getitem] in Hout;
           destruct (negb _); discriminate Hout).
    exists body. cbn [py_in py_getitem] in Hout.
    rewrite dict_get_in in Hout.
    destruct (dict_get "result" body) as [res|]; [|discriminate Hout].
    exists res. split; [reflexivity|]. split; [reflexivity|].
    cbn [negb] in Hout.
    destruct (truthy res) eqn:Htruthy; cbn [negb] in Hout.
    + destruct (py_len res) as [n|] eqn:Hlen; [|discriminate Hout].
      destruct (Z.eqb_spec n 1) as [-> | Hn].
      * right; left. auto.
      * right; right. injection Hout as <-. eauto.
    + left. injection Hout as <-. auto.
Qed.

Lemma X3_witness :
  let ret := json_response 200 "(the body)"
               (Some (PDict [("result", PList [PStr "0.14.2"])])) in
  exists body res,
    json_body ret = Some (PDict body)
    /\ dict_get "result" body = Some res
    /\ ((truthy res = false /\ PStr "0.14.2" = PNone)
        \/ (truthy res = true /\ py_len res = Ok 1
            /\ py_getitem0 res = Ok (PStr "0.14.2"))
        \/ (truthy res = true
            /\ (exists n, py_len res = Ok n /\ n <> 1)
            /\ PStr "0.14.2" = res)).
Proof.
  intros ret.
  refine (proj2 (X3_returned_value
                   (plain_client "https://ci.kbase.us/services/ws")
                   "Workspace.ver" [] None (answering ret) ret
                   (PStr "0.14.2") _ _)); reflexivity.
Defined.

(** X4. A body that parses to something other than an object is not
    reported as the server's error or result. On a 500 application/json
    response, and likewise on an OK response, the key test decides: where
    the test is false (an array without the key as an element, a string
    without it as a substring) the Unknown error is raised, and in every
    other case (null, a boolean, a number, or an array or string that holds
    the key) the call raises [TypeError]. *)
Theorem X4_body_not_an_object self method args service_ver w ret b :
  receives w self method args ret ->
  json_body ret = Some b ->
  (forall d, b <> PDict d) ->
  let out := fst (SDKBaseClient.call_method self method args service_ver w) in
  (status_code ret = 500 ->
   headers ret !! "content-type" = Some "application/json" ->
   (py_in "error" b = Ok false ->
    out = Raise (unknown_error
                   ("The server returned unexpected error JSON: "
                      +:+ text ret)))
   /\ (py_in "error" b <> Ok false -> out = Raise TypeError))
  /\ (status_code ret <> 500 -> ok ret = true ->
      (py_in "result" b = Ok false ->
       out = Raise (unknown_error "An unknown server error occurred"))
      /\ (py_in "result" b <> Ok false -> out = Raise TypeError)).
Proof.
  intros Hrecv Hbody Hnot out. subst out.
  rewrite (call_method_receives _ _ _ _ _ _ Hrecv).
  split.
  - intros Hs Hct. rewrite (response_500_json _ Hs Hct).
    unfold json, mbind, result_bind, rbind. rewrite Hbody.
    split.
    + intros ->. reflexivity.
    + intros Hin.
      destruct b as [| x | z | s | l | d | l | l]; try reflexivity;
        try (exfalso; exact (Hnot d eq_refl));
        cbn [py_in py_getitem] in *;
        match type of Hin with
        | Ok ?x <> _ => destruct x; [reflexivity | congruence]
        end.
  - intros Hs Hok. rewrite (response_ok _ Hs Hok).
    unfold json, mbind, result_bind, rbind. rewrite Hbody.
    split.
    + intros ->. reflexivity.
    + intros Hin.
      destruct b as [| x | z | s | l | d | l | l]; try reflexivity;
        try (exfalso; exact (Hnot d eq_refl));
        cbn [py_in py_getitem] in *;
        match type of Hin with
        | Ok ?x <> _ => destruct x; [reflexivity | congruence]
        end.
Qed.

Lemma X4_witness :
  fst (SDKBaseClient.call_method (plain_client "https://ci.kbase.us/services/ws")
         "Workspace.ver" [] None
         (answering (json_response 500 "null" (Some PNone))))
    = Raise TypeError.
Proof.
  refine (proj2 (proj1 (X4_body_not_an_object _ _ _ _ _
                          (json_response 500 "null" (Some PNone)) PNone
                          _ _ _) _ _) _);
    first [reflexivity | discriminate].
Defined.

Lemma forallb_parameters (e : list (string * PyVal)) :
  forallb (fun k => bool_decide (k ∈ ServerError.parameters)) (map fst e) = true
  <-> Forall (fun k => k ∈ ServerError.parameters) (map fst e).
Proof.
  rewrite forallb_forall, List.Forall_forall.
  split; intros H k Hk.
  - eapply bool_decide_eq_true_1. apply H, Hk.
  - apply bool_decide_eq_true_2, H, Hk.
Qed.

Lemma call_kwargs_outcome kw :
  (binds_parameters kw <-> exists e, ServerError.call_kwargs kw = Ok e)
  /\ (~ binds_parameters kw -> ServerError.call_kwargs kw = Raise TypeError)
  /\ (forall x, ServerError.call_kwargs kw = Raise x -> x = TypeError).
Proof.
  assert (Hinv : forall r, ServerError.call_kwargs kw = r ->
                 binds_parameters kw \/ r = Raise TypeError).
  { intros r <-. destruct kw as [| x | z | s | l | e | l | l]; auto.
    unfold ServerError.call_kwargs.
    destruct (forallb _ _) eqn:Hkeys; [|auto].
    apply forallb_parameters in Hkeys.
    destruct (dict_get "name" e) as [n|] eqn:Hn; [|auto].
    destruct (dict_get "code" e) as [c|] eqn:Hc; [|auto].
    destruct (dict_get "message" e) as [m|] eqn:Hm; [|auto].
    left. exists e. rewrite Hn, Hc, Hm. eauto 10. }
  assert (Hok : binds_parameters kw ->
                exists e, ServerError.call_kwargs kw = Ok e).
  { intros (e & -> & Hkeys & [n Hn] & [c Hc] & [m Hm]).
    rewrite (call_kwargs_bound _ _ _ _ Hkeys Hn Hc Hm). eauto. }
  split; [split|split].
  - exact Hok.
  - intros [e He]. destruct (Hinv _ He) as [Hb | Hr]; [exact Hb | discriminate].
  - intros Hnot. destruct (Hinv _ eq_refl) as [Hb | Hr];
      [contradiction | exact Hr].
  - intros x Hx. destruct (Hinv _ Hx) as [Hb | Hr].
    + destruct (Hok Hb) as [e He]. congruence.
    + congruence.
Qed.

(** X5. On a 500 application/json response whose body is an object with
    an "error" key, a [ServerError] is raised exactly when the value of that
    key is an object holding name, code and message and no key other than
    those, data and error. For any other value (null, a string, an object
    with a further key or without one of the three) the call raises
    [TypeError]. *)
Theorem X5_malformed_error_member self method args service_ver w ret body kw :
  receives w self method args ret ->
  status_code ret = 500 ->
  headers ret !! "content-type" = Some "application/json" ->
  json_body ret = Some (PDict body) ->
  dict_get "error" body = Some kw ->
  let out := fst (SDKBaseClient.call_method self method args service_ver w) in
  (is_ServerError out <-> binds_parameters kw)
  /\ (~ binds_parameters kw -> out = Raise TypeError).
Proof.
  intros Hrecv Hs Hct Hbody Herr out. subst out.
  rewrite (call_method_receives _ _ _ _ _ _ Hrecv), (response_500_json _ Hs Hct).
  unfold json, mbind, result_bind, rbind, py_in, py_getitem.
  rewrite Hbody, dict_get_in, Herr.
  destruct (call_kwargs_outcome kw) as (Hiff & Hno & Htype).
  split; [split|].
  - intros [e He]. apply Hiff.
    destruct (ServerError.call_kwargs kw) as [e'|x]; [eauto|].
    rewrite (Htype x eq_refl) in He. discriminate.
  - intros Hb. destruct (proj1 Hiff Hb) as [e ->]. eexists. reflexivity.
  - intros Hb. rewrite (Hno Hb). reflexivity.
Qed.

Lemma X5_witness :
  let body := [("error", PDict [("name", PStr "E"); ("code", PInt (-1));
                                ("message", PStr "m");
                                ("stack", PStr "at line 1")])] in
  fst (SDKBaseClient.call_method (plain_client "https://ci.kbase.us/services/ws")
         "Workspace.ver" [] None
         (answering (json_response 500 "(the body)" (Some (PDict body)))))
    = Raise TypeError.
Proof.
  intros body.
  refine (proj2 (X5_malformed_error_member _ _ _ _ _
                   (json_response 500 "(the body)" (Some (PDict body)))
                   body _ _ _ _ _ _) _);
    try reflexivity.
  intros (e & [= <-] & Hkeys & _).
  apply forallb_parameters in Hkeys. discriminate Hkeys.
Defined.

(** X6. On an OK response whose body is an object with a "result" key
    that is not an array: a falsy result (null, false, 0, the empty string,
    the empty object) gives [None]; a number other than 0 and [true] raise
    [TypeError]; a string that is not empty is returned as it is; an object
    with one member raises [KeyError], and an object with more members is
    returned as it is. *)
Theorem X6_result_not_an_array self method args service_ver w ret body res :
  receives w self method args ret ->
  status_code ret <> 500 ->
  ok ret = true ->
  json_body ret = Some (PDict body) ->
  dict_get "result" body = Some res ->
  let out := fst (SDKBaseClient.call_method self method args service_ver w) in
  (truthy res = false -> out = Ok PNone)
  /\ (forall z, res = PInt z -> z <> 0 -> out = Raise TypeError)
  /\ (res = PBool true -> out = Raise TypeError)
  /\ (forall s, res = PStr s -> s <> "" -> out = Ok (PStr s))
  /\ (forall kv, res = PDict [kv] -> out = Raise KeyError)
  /\ (forall d, res = PDict d -> (1 < length d)%nat -> out = Ok (PDict d)).
Proof.
  intros Hrecv Hs Hok Hbody Hres out. subst out.
  rewrite (call_method_receives _ _ _ _ _ _ Hrecv), (response_ok _ Hs Hok).
  unfold json, mbind, result_bind, rbind, py_in, py_getitem.
  rewrite Hbody, dict_get_in, Hres. cbn [negb].
  split; [intros ->; reflexivity|].
  split; [intros z -> Hz; cbn [truthy];
          apply Z.eqb_neq in Hz; rewrite Hz; reflexivity|].
  split; [intros ->; reflexivity|].
  split; [intros s -> Hne; destruct s as [|c [|c' s]];
          [congruence | reflexivity |]|].
  { cbn [truthy String.eqb negb py_len].
    destruct (Z.eqb_spec (Z.of_nat (String.length (String c (String c' s)))) 1)
      as [E|E]; [simpl in E; lia | reflexivity]. }
  split; [intros kv ->; reflexivity|].
  intros d -> Hlen. destruct d as [|kv [|kv' d]]; simpl in Hlen; try lia.
  cbn [negb truthy py_len].
  destruct (Z.eqb_spec (Z.of_nat (length (kv :: kv' :: d))) 1) as [E|E];
    [simpl in E; lia | reflexivity].
Qed.

Lemma X6_witness :
  fst (SDKBaseClient.call_method (plain_client "https://httpbin.org/delay/0")
         "Workspace.ver" [] None
         (answering (json_response 200 "(the body)"
                       (Some (PDict [("result", PStr "0.14.2")])))))
    = Ok (PStr "0.14.2").
Proof.
  refine (proj1 (proj2 (proj2 (proj2
            (X6_result_not_an_array _ _ _ _ _
               (json_response 200 "(the body)"
                  (Some (PDict [("result", PStr "0.14.2")])))
               [("result", PStr "0.14.2")] (PStr "0.14.2") _ _ _ _ _))))
            "0.14.2" _ _);
    first [reflexivity | discriminate].
Defined.

(** ** The exception *)

(** X7. Whatever values [ServerError] is constructed with, it keeps the
    name and the code as given, its message is never [None] (and is the one
    given unless that was [None]), and its data is never [None]: it is the
    data given when that is truthy, else the error given when that is
    truthy, else the empty string, so it is either truthy or the empty
    string. *)
Theorem X7_init_never_none (n c m d e : PyVal) :
  let x := ServerError.__init__ n c m d e in
  name x = n
  /\ code x = c
  /\ message x <> PNone
  /\ (m <> PNone -> message x = m)
  /\ data x <> PNone
  /\ (truthy (data x) = true \/ data x = PStr "")
  /\ (truthy d = true -> data x = d)
  /\ (truthy d = false -> truthy e = true -> data x = e)
  /\ (truthy d = false -> truthy e = false -> data x = PStr "").
Proof.
  intros x. subst x. cbn [name code message data ServerError.__init__].
  split; [reflexivity|]. split; [reflexivity|].
  split; [destruct m; discriminate|].
  split; [destruct m; congruence|].
  unfold py_or.
  destruct (truthy d) eqn:Hd.
  - rewrite Hd.
    split; [intros ->; discriminate|].
    split; [auto|]. repeat split; congruence.
  - destruct (truthy e) eqn:He.
    + rewrite He.
      split; [intros ->; discriminate|].
      split; [auto|]. repeat split; congruence.
    + cbn [truthy String.eqb negb].
      split; [discriminate|].
      split; [auto|]. repeat split; congruence.
Qed.

Lemma str_cases (self : ServerError) :
  match name self, message self, data self with
  | PStr n, PStr m, PStr d =>
      ServerError.__str__ self =
        Ok (n +:+ ": " +:+ py_str (code self) +:+ ". " +:+ m +:+ NL +:+ d)
  | _, _, _ => ServerError.__str__ self = Raise TypeError
  end.
Proof.
  destruct self as [n c m d]. cbn [name code message data].
  unfold ServerError.__str__, py_add_str, rbind. cbn [name code message data].
  destruct n; try reflexivity;
    destruct m; try reflexivity;
    destruct d; try reflexivity.
  rewrite !append_assoc. reflexivity.
Qed.

(** X8. The string form of a [ServerError] exists exactly when its name,
    its message and its data are strings, and is then name, colon, [str] of
    the code, period, message, newline, data; with any of the three not a
    string, [__str__] raises [TypeError]. The code may be any value. *)
Theorem X8_str_needs_strings (self : ServerError) :
  ((exists s, ServerError.__str__ self = Ok s)
   <-> (exists n m d, name self = PStr n /\ message self = PStr m
                      /\ data self = PStr d))
  /\ (forall n m d,
        name self = PStr n -> message self = PStr m -> data self = PStr d ->
        ServerError.__str__ self =
          Ok (n +:+ ": " +:+ py_str (code self) +:+ ". " +:+ m +:+ NL +:+ d))
  /\ (forall e, ServerError.__str__ self = Raise e -> e = TypeError).
Proof.
  pose proof (str_cases self) as H.
  split; [split|split].
  - intros [s Hs]. rewrite Hs in H.
    destruct (name self), (message self), (data self);
      try discriminate H; eauto 10.
  - intros (n & m & d & Hn & Hm & Hd). rewrite Hn, Hm, Hd in H. eauto.
  - intros n m d Hn Hm Hd. rewrite Hn, Hm, Hd in H. exact H.
  - intros e He. rewrite He in H.
    destruct (name self), (message self), (data self); congruence.
Qed.

(** X9. When the server's error object carries a data member that is
    truthy and not a string (an array or an object of details, say), the
    call raises a [ServerError] that keeps that value as its data, and the
    string form of that exception raises [TypeError]. *)
Theorem X9_structured_data_breaks_str
    self method args service_ver w ret body e n c m dat :
  receives w self method args ret ->
  status_code ret = 500 ->
  headers ret !! "content-type" = Some "application/json" ->
  json_body ret = Some (PDict body) ->
  dict_get "error" body = Some (PDict e) ->
  Forall (fun k => k ∈ ServerError.parameters) (map fst e) ->
  dict_get "name" e = Some n ->
  dict_get "code" e = Some c ->
  dict_get "message" e = Some m ->
  dict_get "data" e = Some dat ->
  truthy dat = true ->
  (forall s, dat <> PStr s) ->
  exists x,
    fst (SDKBaseClient.call_method self method args service_ver w)
      = Raise (ServerErrorExc x)
    /\ data x = dat
    /\ ServerError.__str__ x = Raise TypeError.
Proof.
  intros Hrecv Hs Hct Hbody Herr Hkeys Hn Hc Hm Hd Htruthy Hnot.
  eexists. split; [|split].
  - rewrite (call_method_receives _ _ _ _ _ _ Hrecv).
    rewrite (response_500_json _ Hs Hct).
    unfold json, mbind, result_bind, rbind, py_in, py_getitem.
    rewrite Hbody, dict_get_in, Herr.
    rewrite (call_kwargs_bound _ _ _ _ Hkeys Hn Hc Hm), Hd. reflexivity.
  - simpl. unfold py_or. rewrite Htruthy, Htruthy. reflexivity.
  - pose proof (str_cases
                  (ServerError.__init__ n c m (default PNone (Some dat))
                     (default PNone (dict_get "error" e)))) as Hstr.
    assert (Hdata : data (ServerError.__init__ n c m (default PNone (Some dat))
                            (default PNone (dict_get "error" e))) = dat).
    { simpl. unfold py_or. rewrite Htruthy, Htruthy. reflexivity. }
    rewrite Hdata in Hstr.
    repeat match type of Hstr with
           | match ?v with _ => _ end => destruct v
           end;
      try exact Hstr; exfalso; eapply Hnot; reflexivity.
Qed.

Lemma X9_witness :
  let details := PDict [("trace", PList [PStr "frame 1"; PStr "frame 2"])] in
  let e := [("name", PStr "JSONRPCError"); ("code", PInt (-32500));
            ("message", PStr "m"); ("data", details)] in
  exists x,
    fst (SDKBaseClient.call_method (plain_client "https://ci.kbase.us/services/ws")
           "Workspace.ver" [] None
           (answering (json_response 500 "(the body)"
                         (Some (PDict [("error", PDict e)])))))
      = Raise (ServerErrorExc x)
    /\ data x = details
    /\ ServerError.__str__ x = Raise TypeError.
Proof.
  intros details e.
  refine (X9_structured_data_breaks_str _ _ _ _ _
            (json_response 500 "(the body)" (Some (PDict [("error", PDict e)])))
            [("error", PDict e)] e (PStr "JSONRPCError") (PInt (-32500))
            (PStr "m") details _ _ _ _ _ _ _ _ _ _ _ _);
    try reflexivity.
  - apply forallb_parameters. reflexivity.
  - intros s. discriminate.
Defined.

(** ** The request *)

(** X10. The request is always made, and its body is the JSON text of an
    object with the members method, params, version (always "1.1") and id,
    in that order, and, after them, context when a context is given and not
    empty; with no context or an empty one the body has the four members
    only. *)
Theorem X10_request_body self url method params context r :
  exists q params_text context_text,
    SDKBaseClient._call_request self url method params context r = Ok q
    /\ dumps (PList params) = Ok params_text
    /\ match context with
       | Some (kv :: c) => dumps (PDict (kv :: c)) = Ok context_text
       | _ => context_text = ""
       end
    /\ req_data q =
         "{" +:+ quoted "method" +:+ ": " +:+ encode_basestring_ascii method
         +:+ ", " +:+ quoted "params" +:+ ": " +:+ params_text
         +:+ ", " +:+ quoted "version" +:+ ": " +:+ quoted "1.1"
         +:+ ", " +:+ quoted "id" +:+ ": "
         +:+ encode_basestring_ascii (str_from 2 r)
         +:+ match context with
             | Some (kv :: c) =>
                 ", " +:+ quoted "context" +:+ ": " +:+ context_text
             | _ => ""
             end
         +:+ "}".
Proof.
  unfold SDKBaseClient._call_request.
  destruct context as [[|kv c]|];
    cbn [truthy app]; rewrite dumps_text; cbn [mbind result_bind rbind];
    eexists; exists (json_text (PList params)); eexists;
    (split; [reflexivity|]); (split; [apply dumps_text|]);
    (split; [first [apply dumps_text | reflexivity]|]);
    cbn [req_data json_text map String.concat fst snd];
    rewrite ?append_assoc; reflexivity.
Qed.

Lemma Ok_inj {A} (a b : A) : @Ok A a = Ok b -> a = b.
Proof. intros [= ->]. reflexivity. Qed.

(** X11. A client that construction returns has the url it was given, with
    a scheme [urlparse] finds among http and https, and a timeout that is
    [int] of the one given and at least 1; every request it posts goes to
    that url with that timeout, verifies certificates unless the client was
    told to trust them all, and carries the headers prepared from the token
    resolved at construction. *)
Theorem X11_constructed_client
    (urlparse : string -> result string) (u : option string) (t : PyNum)
    (explicit : option string) (trust lookup : bool) (ms scale max_ms : Z)
    (w : World) (c : SDKBaseClient) :
  fst (SDKBaseClient.__init__ urlparse u t explicit trust lookup
         ms scale max_ms w) = Ok c ->
  u = Some (url c)
  /\ (exists scheme, urlparse (url c) = Ok scheme /\ scheme ∈ _URL_SCHEME)
  /\ py_int t = Ok (timeout c)
  /\ 1 <= timeout c
  /\ trust_all_ssl_certificates c = trust
  /\ (forall method args service_ver w',
        exists q,
          sent (snd (SDKBaseClient.call_method c method args service_ver w'))
            = (sent w' ++ [q])%list
          /\ req_url q = url c
          /\ py_int t = Ok (req_timeout q)
          /\ 1 <= req_timeout q
          /\ req_verify q = negb trust
          /\ req_headers q = auth_headers (resolved_token explicit w)).
Proof.
  intros Hmade.
  apply init_ok_inv in Hmade
    as (s & sch & n & a & b & -> & Hparse & Hscheme & Hint & Hge & _ & _ & ->).
  cbn [url timeout trust_all_ssl_certificates].
  split; [reflexivity|].
  split; [exists sch; split; assumption|].
  split; [exact Hint|]. split; [exact Hge|]. split; [reflexivity|].
  intros method args service_ver w'. eexists.
  rewrite call_method_run. cbn [snd after_call sent].
  split; [reflexivity|].
  unfold posted, request_with_id.
  cbn [req_url req_timeout req_verify req_headers url timeout _headers
       trust_all_ssl_certificates].
  split; [reflexivity|]. split; [exact Hint|]. split; [exact Hge|].
  split; reflexivity.
Qed.

Lemma X11_witness :
  exists c,
    fst (construct (Some "https://ci.kbase.us/services/ws")
           (NFloat 3 (-1)) None (with_env_token "envtoken" version_response))
      = Ok c
    /\ timeout c = 1.
Proof.
  eexists. split; [reflexivity|].
  match goal with
  | |- timeout ?c = _ =>
      pose proof (X11_constructed_client urlparse_scheme
                    (Some "https://ci.kbase.us/services/ws") (NFloat 3 (-1))
                    None false false 100 150 300000
                    (with_env_token "envtoken" version_response) c
                    eq_refl) as (_ & _ & Htimeout & _)
  end.
  symmetry. exact (Ok_inj _ _ Htimeout).
Defined.

(** X12. Two calls made one after the other post two requests, in the
    order of the calls, whatever the first call came to; each takes the next
    draw of the random source for its id, and the environment is left as it
    was. *)
Theorem X12_two_calls self m1 a1 v1 m2 a2 v2 w :
  let w1 := snd (SDKBaseClient.call_method self m1 a1 v1 w) in
  let w2 := snd (SDKBaseClient.call_method self m2 a2 v2 w1) in
  sent w2 =
    (sent w ++ [request_with_id self m1 a1 (randoms w (draws w));
                request_with_id self m2 a2 (randoms w (S (draws w)))])%list
  /\ draws w2 = S (S (draws w))
  /\ environ w2 = environ w
  /\ req_headers (request_with_id self m1 a1 (randoms w (draws w)))
       = req_headers (request_with_id self m2 a2 (randoms w (S (draws w)))).
Proof.
  intros w1 w2. subst w1 w2. rewrite !call_method_run.
  cbn [snd after_call sent draws environ randoms].
  rewrite <- app_assoc. repeat split.
Qed.

(** ** Serialization *)

Lemma forallb_append f a b :
  string_forallb f (a +:+ b) = string_forallb f a && string_forallb f b.
Proof.
  induction a as [|c a IH]; [reflexivity|].
  change (f c && string_forallb f (a +:+ b)
          = f c && string_forallb f a && string_forallb f b).
  rewrite IH. apply andb_assoc.
Qed.

Lemma forallb_string_map f g s :
  (forall c, string_forallb f (g c) = true) ->
  string_forallb f (string_map g s) = true.
Proof.
  intros Hg. induction s as [|c s IH]; [reflexivity|].
  cbn [string_map]. rewrite forallb_append, Hg, IH. reflexivity.
Qed.

Lemma forallb_concat f sep l :
  string_forallb f sep = true ->
  Forall (fun x => string_forallb f x = true) l ->
  string_forallb f (String.concat sep l) = true.
Proof.
  intros Hsep Hl. induction Hl as [|x l Hx Hl IH]; [reflexivity|].
  destruct l as [|y l]; [exact Hx|].
  change (string_forallb f (x +:+ sep +:+ String.concat sep (y :: l)) = true).
  rewrite !forallb_append, Hx, Hsep, IH. reflexivity.
Qed.

Lemma json_escape_char_printable c :
  string_forallb printable (json_escape_char c) = true.
Proof. destruct c as [[] [] [] [] [] [] [] []]; reflexivity. Qed.

Lemma encode_basestring_ascii_printable s :
  string_forallb printable (encode_basestring_ascii s) = true.
Proof.
  unfold encode_basestring_ascii.
  rewrite !forallb_append, forallb_string_map by apply json_escape_char_printable.
  reflexivity.
Qed.

Lemma string_of_uint_printable d :
  string_forallb printable (NilEmpty.string_of_uint d) = true.
Proof.
  induction d as [| d IH | d IH | d IH | d IH | d IH | d IH | d IH | d IH
                 | d IH | d IH];
    [reflexivity | ..];
    cbn [NilEmpty.string_of_uint string_forallb]; rewrite IH; reflexivity.
Qed.

Lemma nilzero_string_of_uint_printable d :
  string_forallb printable (NilZero.string_of_uint d) = true.
Proof.
  destruct d; try reflexivity; apply string_of_uint_printable.
Qed.

Lemma str_of_int_printable z :
  string_forallb printable (str_of_int z) = true.
Proof.
  unfold str_of_int, NilZero.string_of_int.
  destruct (Z.to_int z);
    [|change (printable "-" && string_forallb printable
                                 (NilZero.string_of_uint d) = true)];
    rewrite nilzero_string_of_uint_printable; reflexivity.
Qed.

Lemma json_text_printable v :
  string_forallb printable (json_text v) = true.
Proof.
  induction v as [| b | z | s | l IH | d IH | l IH | l IH]
    using PyVal_nested_ind; cbn [json_text].
  - reflexivity.
  - destruct b; reflexivity.
  - apply str_of_int_printable.
  - apply encode_basestring_ascii_printable.
  - rewrite !forallb_append, forallb_concat; [reflexivity..|].
    apply Forall_map. exact IH.
  - rewrite !forallb_append, forallb_concat; [reflexivity..|].
    apply Forall_map. eapply Forall_impl; [exact IH|].
    intros [k x] Hx. cbn [fst snd] in *.
    rewrite !forallb_append, encode_basestring_ascii_printable, Hx. reflexivity.
  - rewrite !forallb_append, forallb_concat; [reflexivity..|].
    apply Forall_map. exact IH.
  - rewrite !forallb_append, forallb_concat; [reflexivity..|].
    apply Forall_map. exact IH.
Qed.

(** X13. Serialization writes every value, and what it writes is printable
    ASCII: every character of [dumps] of any value, and so of the body of
    every request, lies from space to tilde; control characters, quotes
    inside strings and characters beyond ASCII only appear escaped. *)
Theorem X13_body_is_printable_ascii :
  (forall v, exists text,
     dumps v = Ok text /\ string_forallb printable text = true)
  /\ (forall self url method params context r,
        exists q,
          SDKBaseClient._call_request self url method params context r = Ok q
          /\ string_forallb printable (req_data q) = true).
Proof.
  split.
  - intros v. exists (json_text v).
    split; [apply dumps_text | apply json_text_printable].
  - intros. unfold SDKBaseClient._call_request. rewrite dumps_text.
    cbn [mbind result_bind rbind]. eexists. split; [reflexivity|].
    cbn [req_data]. apply json_text_printable.
Qed.

(** ** Status classes *)

Lemma not_error_status ret :
  ~ error_status (status_code ret) -> status_code ret <> 500 /\ ok ret = true.
Proof.
  intros Hnot. split.
  - intros Hs. apply Hnot. unfold error_status. lia.
  - destruct (ok ret) eqn:Hok; [reflexivity|].
    exfalso. apply Hnot, ok_false_iff, Hok.
Qed.

(** X14. For a response with a status outside 400 to 599, the outcome of
    the call is decided by the parsed body alone: two such responses with
    the same parsed body give the same outcome, whatever their status,
    headers (the content-type included) and raw text. *)
Theorem X14_success_depends_on_body_only
    self method args service_ver w ret
    self' method' args' service_ver' w' ret' :
  receives w self method args ret ->
  receives w' self' method' args' ret' ->
  ~ error_status (status_code ret) ->
  ~ error_status (status_code ret') ->
  json_body ret = json_body ret' ->
  fst (SDKBaseClient.call_method self method args service_ver w)
    = fst (SDKBaseClient.call_method self' method' args' service_ver' w').
Proof.
  intros Hrecv Hrecv' Hst Hst' Hbody.
  rewrite (call_method_receives _ _ _ _ _ _ Hrecv).
  rewrite (call_method_receives _ _ _ _ _ _ Hrecv').
  destruct (not_error_status _ Hst) as [Hs Hok].
  destruct (not_error_status _ Hst') as [Hs' Hok'].
  rewrite (response_ok _ Hs Hok), (response_ok _ Hs' Hok').
  unfold json. rewrite Hbody. reflexivity.
Qed.

Lemma X14_witness :
  let body := Some (PDict [("result", PList [PStr "0.14.2"])]) in
  let html := {| status_code := 302;
                 headers := {[ "content-type" := "text/html" ]};
                 text := "<html>moved</html>";
                 json_body := body |} in
  fst (SDKBaseClient.call_method (plain_client "https://ci.kbase.us/services/ws")
         "Workspace.ver" [] None (answering html))
    = fst (SDKBaseClient.call_method
             (plain_client "https://ci.kbase.us/services/ws")
             "Workspace.ver" [] None
             (answering (json_response 200 "(the body)" body))).
Proof.
  intros body html.
  refine (X14_success_depends_on_body_only _ _ _ _ _ html _ _ _ _ _
            (json_response 200 "(the body)" body) _ _ _ _ _);
    try reflexivity; unfold error_status; simpl; lia.
Defined.

(** ** Timeouts *)

(** X15. With a url that passes, a float timeout [m * 2^e] with a
    fractional part ([e < 0]) is accepted exactly when its value is at least
    1 (and the job-check times convert to floats), and the timeout the
    client keeps is its integer part: the fraction is dropped, not
    rounded. *)
Theorem X15_float_timeout
    (urlparse : string -> result string) (s : string) (m e : Z)
    (explicit : option string) (trust lookup : bool) (ms scale max_ms : Z)
    (w : World) :
  e < 0 ->
  (exists scheme, urlparse s = Ok scheme /\ scheme ∈ _URL_SCHEME) ->
  let run := fst (SDKBaseClient.__init__ urlparse (Some s) (NFloat m e)
                    explicit trust lookup ms scale max_ms w) in
  ((exists c, run = Ok c)
   <-> 2 ^ (- e) <= m /\ fits_float ms /\ fits_float max_ms)
  /\ (forall c, run = Ok c ->
       timeout c * 2 ^ (- e) <= m < (timeout c + 1) * 2 ^ (- e)).
Proof.
  intros He (sch & Hparse & Hscheme) run. subst run. rewrite init_run.
  cbn [fst]. unfold mbind, result_bind, rbind. rewrite Hparse.
  rewrite bool_decide_eq_false_2 by (intros Hbad; contradiction).
  cbn [py_int]. destruct (Z.leb_spec 0 e) as [Hle | _]; [lia|].
  set (k := 2 ^ (- e)).
  assert (Hk : 0 < k) by (apply Z.pow_pos_nonneg; lia).
  destruct (div_1000_fits ms) as [Hms Hms'].
  destruct (div_1000_fits max_ms) as [Hmax Hmax'].
  destruct (Z_lt_dec (Z.abs ms) float_limit) as [Fms|Fms].
  2: { rewrite (Hms' Fms). split; [split|].
       - intros [c Hc]. discriminate.
       - intros (_ & F & _). contradiction.
       - intros c Hc. discriminate. }
  destruct (Hms Fms) as [a ->].
  destruct (Z_lt_dec (Z.abs max_ms) float_limit) as [Fmax|Fmax].
  2: { rewrite (Hmax' Fmax). split; [split|].
       - intros [c Hc]. discriminate.
       - intros (_ & _ & F). contradiction.
       - intros c Hc. discriminate. }
  destruct (Hmax Fmax) as [b ->].
  destruct (Z.lt_ge_cases m 0) as [Hneg | Hpos].
  - assert (Hq : Z.quot m k <= 0).
    { replace m with (- (- m)) by lia. rewrite Z.quot_opp_l by lia.
      pose proof (Z.quot_pos (- m) k). lia. }
    destruct (Z.ltb_spec (Z.quot m k) 1) as [_ | Hge]; [|lia].
    split; [split|].
    + intros [c Hc]. discriminate.
    + intros (Hm & _). lia.
    + intros c Hc. discriminate.
  - rewrite Z.quot_div_nonneg by lia.
    pose proof (Z.div_mod m k ltac:(lia)) as Hdm.
    pose proof (Z.mod_pos_bound m k Hk) as Hmod.
    destruct (Z.ltb_spec (m / k) 1) as [Hlt | Hge].
    + split; [split|].
      * intros [c Hc]. discriminate.
      * intros (Hm & _). exfalso.
        assert (0 <= m / k) by (apply Z.div_pos; lia). nia.
      * intros c Hc. discriminate.
    + split; [split|].
      * intros _. split; [nia|]. split; assumption.
      * intros _. eauto.
      * intros c [= <-]. cbn [timeout]. nia.
Qed.

Lemma X15_witness :
  exists c,
    fst (construct (Some "https://ci.kbase.us/services/ws") (NFloat 15 (-3))
           None (answering version_response)) = Ok c
    /\ timeout c * 2 ^ 3 <= 15 < (timeout c + 1) * 2 ^ 3.
Proof.
  eexists. split; [reflexivity|].
  assert (exists scheme,
            urlparse_scheme "https://ci.kbase.us/services/ws" = Ok scheme
            /\ scheme ∈ _URL_SCHEME) as Hscheme.
  { exists "https". split; [vm_compute; reflexivity|].
    apply (bool_decide_unpack _). vm_compute. exact I. }
  match goal with
  | |- timeout ?c * _ <= _ < _ =>
      apply (proj2 (X15_float_timeout urlparse_scheme
                      "https://ci.kbase.us/services/ws" 15 (-3) None
                      false false 100 150 300000
                      (answering version_response) ltac:(lia) Hscheme)
               c eq_refl)
  end.
Defined.

(** ** Parameters kept for later *)

(** X16. The parameters [lookup_url] and the three job-check timings are
    stored and never used: two clients constructed alike except for them
    post the same requests and get the same outcomes from every call. *)
Theorem X16_reserved_parameters_unused
    (urlparse : string -> result string) (u : option string) (t : PyNum)
    (explicit : option string) (trust : bool)
    (lookup lookup' : bool) (ms scale max_ms ms' scale' max_ms' : Z)
    (w : World) (c c' : SDKBaseClient) :
  fst (SDKBaseClient.__init__ urlparse u t explicit trust lookup
         ms scale max_ms w) = Ok c ->
  fst (SDKBaseClient.__init__ urlparse u t explicit trust lookup'
         ms' scale' max_ms' w) = Ok c' ->
  forall method args service_ver w',
    SDKBaseClient.call_method c method args service_ver w'
      = SDKBaseClient.call_method c' method args service_ver w'.
Proof.
  intros Hmade Hmade' method args service_ver w'.
  apply init_ok_inv in Hmade
    as (s & sch & n & a & b & -> & _ & _ & Hint & _ & _ & _ & ->).
  apply init_ok_inv in Hmade'
    as (s' & sch' & n' & a' & b' & [= <-] & _ & _ & Hint' & _ & _ & _ & ->).
  rewrite Hint in Hint'. injection Hint' as <-.
  rewrite !call_method_run. reflexivity.
Qed.

Lemma X16_witness :
  exists c c',
    fst (SDKBaseClient.__init__ urlparse_scheme
           (Some "https://ci.kbase.us/services/ws") (NInt 1800) None
           false false 100 150 300000 (answering version_response)) = Ok c
    /\ fst (SDKBaseClient.__init__ urlparse_scheme
              (Some "https://ci.kbase.us/services/ws") (NInt 1800) None
              false true 5 200 1000 (answering version_response)) = Ok c'
    /\ SDKBaseClient.call_method c "Workspace.ver" [] None
         (answering version_response)
       = SDKBaseClient.call_method c' "Workspace.ver" [] None
           (answering version_response).
Proof.
  eexists. eexists. split; [reflexivity|]. split; [reflexivity|].
  match goal with
  | |- SDKBaseClient.call_method ?c _ _ _ _
       = SDKBaseClient.call_method ?c' _ _ _ _ =>
      exact (X16_reserved_parameters_unused urlparse_scheme
               (Some "https://ci.kbase.us/services/ws") (NInt 1800) None
               false false true 100 150 300000 5 200 1000
               (answering version_response) c c' eq_refl eq_refl
               "Workspace.ver" [] None (answering version_response))
  end.
Defined.
